(** * recotwix: protocol volumes and protocol summary

    A shallow embedding of [recotwix/prot_volumes.py] and
    [recotwix/protocol.py], and the properties of the volume descriptor,
    the volume collections, the volume registry and the protocol summary
    extractor that the specification states about them.

    Layout of the development:
    - [Py]: the fragment of Python's object model the two modules rely on
      (dynamically typed values, exceptions, the arithmetic of [int] and
      of IEEE-754 binary64 [float], subscripting, [dict.get], [len],
      list indexing with negative indices, f-string formatting);
    - [Externals]: the collaborators that are imported by the two modules
      but are not part of them (the [transformation] engine, [os.path],
      [twixtools.twixprot], [numpy], [int] applied to a [str]);
    - [ProtVolumes]: [volume_orientation], [volume], the three collection
      classes and [prot_volumes];
    - [Protocol]: [protocol_parse];
    - the theorems. *)

From Stdlib Require Import ZArith Ascii String List Bool Lia.
From Stdlib Require Import SpecFloat.
From stdpp Require Import base option list gmap strings pretty.

Set Warnings "-register-all".
Local Open Scope string_scope.
Local Open Scope list_scope.
Local Open Scope Z_scope.

(* ===================================================================== *)
(** ** Python values, exceptions and built-in operations                  *)
(* ===================================================================== *)

Module Py.

(** The exceptions the two modules can raise, directly or through the
    built-ins they call.  [KeyError] carries the missing key, the others
    carry their message. *)
Inductive exn : Type :=
  | KeyError (key : string)
  | IndexError (msg : string)
  | ValueError (msg : string)
  | TypeError (msg : string)
  | AttributeError (msg : string)
  | ZeroDivisionError (msg : string)
  | OverflowError (msg : string)
  | OSError (msg : string)
  | SystemError (msg : string).

(** The outcome of evaluating an expression: a value, or a raised
    exception that propagates to the caller (nothing in the two modules
    catches exceptions). *)
Inductive result (A : Type) : Type :=
  | Ok (a : A)
  | Raise (e : exn).
Arguments Ok {A} a.
Arguments Raise {A} e.

#[export] Instance result_ret : MRet result := fun _ a => Ok a.
#[export] Instance result_bind : MBind result := fun _ _ k m =>
  match m with
  | Ok a => k a
  | Raise e => Raise e
  end.

Definition is_ok {A} (r : result A) : bool :=
  match r with Ok _ => true | Raise _ => false end.

(** The object that [twixtools] exposes for the acquired samples: the
    names of its dimensions and its extent along each of them. *)
Record twix_array : Type := TwixArray {
  dims : list string;
  shape : list Z
}.

(** Python floats are IEEE-754 binary64 numbers. *)
Definition prec : Z := 53.
Definition emax : Z := 1024.
Abbreviation float := spec_float.

(** Dynamically typed values: what a parsed protocol tree is made of.
    Dictionaries are keyed by strings, as the parsed header is. *)
Inductive pyval : Type :=
  | PNone
  | PBool (b : bool)
  | PInt (z : Z)
  | PFloat (f : float)
  | PStr (s : string)
  | PList (l : list pyval)
  | PDict (d : gmap string pyval)
  | PTwix (a : twix_array).

(** [type(v).__name__] *)
Definition type_name (v : pyval) : string :=
  match v with
  | PNone => "NoneType"
  | PBool _ => "bool"
  | PInt _ => "int"
  | PFloat _ => "float"
  | PStr _ => "str"
  | PList _ => "list"
  | PDict _ => "dict"
  | PTwix _ => "twix_array"
  end.

(** [f'{type(v)}'] *)
Definition type_repr (v : pyval) : string :=
  "<class '" +:+ type_name v +:+ "'>".

(** [v is None] *)
Definition is_None (v : pyval) : bool :=
  match v with PNone => true | _ => false end.

(** *** Numbers *)

(** [float(z)] for an [int]: round to nearest, ties to even;
    [OverflowError] beyond the range of binary64. *)
Definition float_of_int (z : Z) : result float :=
  match binary_normalize prec emax z 0 false with
  | S754_infinity _ => Raise (OverflowError "int too large to convert to float")
  | f => Ok f
  end.

(** An integer as an (unnormalised) mantissa with exponent 0, the exact
    operand of the correctly rounded integer division below. *)
Definition exact_int (z : Z) : float :=
  match z with
  | Z0 => S754_zero false
  | Zpos p => S754_finite false p 0
  | Zneg p => S754_finite true p 0
  end.

(** [a / b] on two [int]s: the correctly rounded quotient. *)
Definition int_truediv (a b : Z) : result float :=
  if b =? 0 then Raise (ZeroDivisionError "division by zero")
  else match SFdiv prec emax (exact_int a) (exact_int b) with
       | S754_infinity _ =>
           Raise (OverflowError "integer division result too large for a float")
       | f => Ok f
       end.

Definition float_is_zero (f : float) : bool :=
  match f with S754_zero _ => true | _ => false end.

(** [a / b] on two [float]s. *)
Definition float_truediv (a b : float) : result float :=
  if float_is_zero b then Raise (ZeroDivisionError "float division by zero")
  else Ok (SFdiv prec emax a b).

(** [int(f)] for a [float]: truncation towards zero. *)
Definition float_trunc (f : float) : result Z :=
  match f with
  | S754_zero _ => Ok 0
  | S754_nan => Raise (ValueError "cannot convert float NaN to integer")
  | S754_infinity _ =>
      Raise (OverflowError "cannot convert float infinity to integer")
  | S754_finite s m e =>
      let a := Z.shiftl (Zpos m) e in
      Ok (if s then - a else a)
  end.

(** Exact comparison of a [float] with an [int] ([None] for NaN). *)
Definition float_compare_int (f : float) (n : Z) : option comparison :=
  match f with
  | S754_nan => None
  | S754_infinity s => Some (if s then Lt else Gt)
  | S754_zero _ => Some (0 ?= n)
  | S754_finite s m e =>
      let sm := if s then Zneg m else Zpos m in
      Some (Z.shiftl sm (Z.max e 0) ?= Z.shiftl n (Z.max (- e) 0))
  end.

Definition Z_of_bool (b : bool) : Z := if b then 1 else 0.

(** The numeric tower: [bool] is a subtype of [int]. *)
Inductive number : Type :=
  | NInt (z : Z)
  | NFloat (f : float).

Definition as_number (v : pyval) : option number :=
  match v with
  | PBool b => Some (NInt (Z_of_bool b))
  | PInt z => Some (NInt z)
  | PFloat f => Some (NFloat f)
  | _ => None
  end.

Definition unsupported (op : string) (a b : pyval) : exn :=
  TypeError ("unsupported operand type(s) for " +:+ op +:+ ": '"
             +:+ type_name a +:+ "' and '" +:+ type_name b +:+ "'").

(** [a / b] *)
Definition truediv (a b : pyval) : result pyval :=
  match as_number a, as_number b with
  | Some (NInt x), Some (NInt y) => f ← int_truediv x y; Ok (PFloat f)
  | Some (NInt x), Some (NFloat g) =>
      f ← float_of_int x; q ← float_truediv f g; Ok (PFloat q)
  | Some (NFloat f), Some (NInt y) =>
      g ← float_of_int y; q ← float_truediv f g; Ok (PFloat q)
  | Some (NFloat f), Some (NFloat g) => q ← float_truediv f g; Ok (PFloat q)
  | _, _ => Raise (unsupported "/" a b)
  end.

(** [a - b] *)
Definition sub (a b : pyval) : result pyval :=
  match as_number a, as_number b with
  | Some (NInt x), Some (NInt y) => Ok (PInt (x - y))
  | Some (NInt x), Some (NFloat g) =>
      f ← float_of_int x; Ok (PFloat (SFsub prec emax f g))
  | Some (NFloat f), Some (NInt y) =>
      g ← float_of_int y; Ok (PFloat (SFsub prec emax f g))
  | Some (NFloat f), Some (NFloat g) => Ok (PFloat (SFsub prec emax f g))
  | _, _ => Raise (unsupported "-" a b)
  end.

(** [abs(v)] *)
Definition abs (v : pyval) : result pyval :=
  match as_number v with
  | Some (NInt x) => Ok (PInt (Z.abs x))
  | Some (NFloat f) => Ok (PFloat (SFabs f))
  | None => Raise (TypeError ("bad operand type for abs(): '"
                              +:+ type_name v +:+ "'"))
  end.

(** [v == n] for an [int] literal [n]; never raises. *)
Definition eq_int (v : pyval) (n : Z) : bool :=
  match as_number v with
  | Some (NInt x) => x =? n
  | Some (NFloat f) =>
      match float_compare_int f n with Some Eq => true | _ => false end
  | None => false
  end.

(** [v > n] for an [int] literal [n]. *)
Definition gt_int (v : pyval) (n : Z) : result bool :=
  match as_number v with
  | Some (NInt x) => Ok (n <? x)
  | Some (NFloat f) =>
      Ok (match float_compare_int f n with Some Gt => true | _ => false end)
  | None => Raise (TypeError ("'>' not supported between instances of '"
                              +:+ type_name v +:+ "' and 'int'"))
  end.

(** *** Containers *)

Definition not_subscriptable (v : pyval) : exn :=
  TypeError ("'" +:+ type_name v +:+ "' object is not subscriptable").

(** [l[i]] on a built-in sequence: a negative index counts from the end. *)
Definition seq_getitem {A} (kind : string) (l : list A) (i : Z) : result A :=
  let n := Z.of_nat (length l) in
  let j := if i <? 0 then i + n else i in
  if (j <? 0) || (n <=? j)
  then Raise (IndexError (kind +:+ " index out of range"))
  else match l !! Z.to_nat j with
       | Some x => Ok x
       | None => Raise (IndexError (kind +:+ " index out of range"))
       end.

(** [v[k]] with a string key. *)
Definition getitem (v : pyval) (k : string) : result pyval :=
  match v with
  | PDict d =>
      match d !! k with
      | Some x => Ok x
      | None => Raise (KeyError k)
      end
  | PList _ =>
      Raise (TypeError "list indices must be integers or slices, not str")
  | PStr _ => Raise (TypeError "string indices must be integers, not 'str'")
  | _ => Raise (not_subscriptable v)
  end.

(** [v[i]] with an integer index.  The dictionaries of a parsed protocol
    have string keys only, so an integer is never one of their keys. *)
Definition getindex (v : pyval) (i : Z) : result pyval :=
  match v with
  | PList l => seq_getitem "list" l i
  | PStr s =>
      c ← seq_getitem "string" (list_ascii_of_string s) i;
      Ok (PStr (String c EmptyString))
  | PDict _ => Raise (KeyError (pretty i))
  | _ => Raise (not_subscriptable v)
  end.

Definition no_attribute (v : pyval) (a : string) : exn :=
  AttributeError ("'" +:+ type_name v +:+ "' object has no attribute '"
                  +:+ a +:+ "'").

(** [v.get(k, default)] *)
Definition get (v : pyval) (k : string) (default : pyval) : result pyval :=
  match v with
  | PDict d => Ok (match d !! k with Some x => x | None => default end)
  | _ => Raise (no_attribute v "get")
  end.

(** [len(v)] *)
Definition len (v : pyval) : result Z :=
  match v with
  | PList l => Ok (Z.of_nat (length l))
  | PStr s => Ok (Z.of_nat (String.length s))
  | PDict d => Ok (Z.of_nat (size d))
  | _ => Raise (TypeError ("object of type '" +:+ type_name v
                           +:+ "' has no len()"))
  end.

(** The items a [for] loop over [v] visits.  A dictionary yields its
    keys, a string its characters. *)
Definition iter (v : pyval) : result (list pyval) :=
  match v with
  | PList l => Ok l
  | PDict d => Ok (PStr <$> (map_to_list d).*1)
  | PStr s =>
      Ok ((fun c => PStr (String c EmptyString)) <$> list_ascii_of_string s)
  | _ => Raise (TypeError ("'" +:+ type_name v +:+ "' object is not iterable"))
  end.

(** [l.index(x)] on a list of strings. *)
Fixpoint list_index (l : list string) (x : string) : option nat :=
  match l with
  | [] => None
  | y :: l' => if String.eqb y x then Some 0%nat else S <$> list_index l' x
  end.

Definition index (l : list string) (x : string) : result Z :=
  match list_index l x with
  | Some i => Ok (Z.of_nat i)
  | None => Raise (ValueError ("'" +:+ x +:+ "' is not in list"))
  end.

(** [img.dims] and [img.shape] *)
Definition attr_dims (v : pyval) : result (list string) :=
  match v with
  | PTwix a => Ok (dims a)
  | _ => Raise (no_attribute v "dims")
  end.

Definition attr_shape (v : pyval) : result (list Z) :=
  match v with
  | PTwix a => Ok (shape a)
  | _ => Raise (no_attribute v "shape")
  end.

(** [f'{n}'] for an [int], and for an optional string ([None] prints as
    its name). *)
Definition str_int (n : Z) : string := pretty n.

Definition str_name (name : option string) : string :=
  match name with
  | Some s => s
  | None => "None"
  end.

End Py.

Import Py.

(* ===================================================================== *)
(** ** The store of resolution dictionaries                               *)
(* ===================================================================== *)

(** A dictionary with the three keys ['x'], ['y'] and ['z']: the shape of
    [_fov] and of [res] in [volume_orientation]. *)
Record xyz : Type := XYZ {
  key_x : pyval;
  key_y : pyval;
  key_z : pyval
}.

(** [res] is a mutable dictionary: [volume_orientation.__init__] assigns
    to [res['z']] in place, keeps the very object it was given as [_res],
    and [volume_slice] hands one [res] to every descriptor it builds.
    Resolution dictionaries therefore live in a store and are passed by
    reference. *)
Definition loc : Type := nat.
Definition heap : Type := list xyz.

(** Evaluation of a statement: it may raise, and it may update the store
    (an update made before an exception is raised stays made). *)
Definition Eval (A : Type) : Type := heap → result A * heap.

#[export] Instance Eval_ret : MRet Eval := fun _ a h => (Ok a, h).
#[export] Instance Eval_bind : MBind Eval := fun _ _ k m h =>
  match m h with
  | (Ok a, h') => k a h'
  | (Raise e, h') => (Raise e, h')
  end.

(** An expression that does not touch the store. *)
Definition lift {A} (r : result A) : Eval A := fun h => (r, h).

(** A dictionary display [{'x': .., 'y': .., 'z': ..}] creates an object. *)
Definition alloc (d : xyz) : Eval loc := fun h => (Ok (length h), h ++ [d]).

Definition dangling : exn := SystemError "dangling reference".

(** Reading through a reference. *)
Definition load (l : loc) : Eval xyz := fun h =>
  match h !! l with
  | Some d => (Ok d, h)
  | None => (Raise dangling, h)
  end.

(** [res['z'] = v] *)
Definition store_z (l : loc) (v : pyval) : Eval unit := fun h =>
  match h !! l with
  | Some d => (Ok tt, <[l := XYZ (key_x d) (key_y d) v]> h)
  | None => (Raise dangling, h)
  end.

(** An insertion-ordered dictionary with string keys ([dict] keeps the
    order in which keys were first inserted). *)
Definition odict (A : Type) : Type := list (string * A).

Fixpoint odict_set {A} (k : string) (a : A) (d : odict A) : odict A :=
  match d with
  | [] => [(k, a)]
  | (k', a') :: d' =>
      if String.eqb k' k then (k', a) :: d' else (k', a') :: odict_set k a d'
  end.

Fixpoint odict_get {A} (k : string) (d : odict A) : option A :=
  match d with
  | [] => None
  | (k', a') :: d' => if String.eqb k' k then Some a' else odict_get k d'
  end.

Definition odict_keys {A} (d : odict A) : list string := d.*1.
Definition odict_values {A} (d : odict A) : list A := d.*2.

(** A chain of subscripts [v[k1][k2]...], evaluated left to right. *)
Inductive subscript : Type :=
  | Key (k : string)
  | Idx (i : Z).

Definition subscr (v : pyval) (s : subscript) : result pyval :=
  match s with
  | Key k => getitem v k
  | Idx i => getindex v i
  end.

Fixpoint getpath (v : pyval) (p : list subscript) : result pyval :=
  match p with
  | [] => Ok v
  | s :: p' => w ← subscr v s; getpath w p'
  end.

(* ===================================================================== *)
(** ** Collaborators outside the two modules                              *)
(* ===================================================================== *)

(** What [prot_volumes.py] and [protocol.py] import and call but do not
    define.  Each operation may raise; nothing else is assumed of it.
    - [calc_norm2dcm], [calc_tranformation_matrix], [calc_nifti_affine]:
      the module [transformation] (imported as [T]);
    - [os_path_isfile], [read_text]: [os.path.isfile], and [open] followed
      by [read];
    - [parse_buffer]: [twixtools.twixprot.parse_buffer];
    - [np_array], [np_truediv], [np_slice]: [numpy.array], the division of
      an array by an [int] literal, and the slice [a[lo:hi]];
    - [int_of_str]: the built-in [int] applied to a [str]. *)
Class Externals : Type := {
  matrix : Type;
  ndarray : Type;
  calc_norm2dcm : pyval → pyval → pyval → pyval → result matrix;
  calc_tranformation_matrix : matrix → list pyval → result matrix;
  calc_nifti_affine : matrix → xyz → xyz → pyval → result matrix;
  os_path_isfile : pyval → result bool;
  read_text : pyval → result string;
  parse_buffer : string → result pyval;
  np_array : pyval → result ndarray;
  np_truediv : ndarray → Z → result ndarray;
  np_slice : ndarray → Z → pyval → result ndarray;
  int_of_str : string → result Z
}.

(** [int(v)] *)
Definition py_int `{Externals} (v : pyval) : result Z :=
  match v with
  | PBool b => Ok (Z_of_bool b)
  | PInt z => Ok z
  | PFloat f => float_trunc f
  | PStr s => int_of_str s
  | _ => Raise (TypeError
      ("int() argument must be a string, a bytes-like object or a real number, not '"
       +:+ type_name v +:+ "'"))
  end.

(* ===================================================================== *)
(** ** prot_volumes.py                                                    *)
(* ===================================================================== *)

(** *** class volume_orientation *)
Module volume_orientation.
Section WithExternals.
Context `{Externals}.

Record t : Type := Build {
  _norm : list pyval;           (* [norm_sag, norm_cor, norm_tra] *)
  _rot : pyval;                 (* inplane rotation (radians) *)
  _pos : list pyval;            (* offset from origin (mm) *)
  _fov : xyz;                   (* FoV (mm) *)
  _res : loc;                   (* resolution (voxels), by reference *)
  _thickness : pyval;           (* slice thickness (mm) *)
  _affine : matrix;
  _transformation : matrix;
  _name : option string
}.

(** [__init__(self, volume_structure=None, res=None, thickness=None, name=None)] *)
Definition __init__ (volume_structure : pyval) (res : option loc)
    (thickness : pyval) (name : option string) : Eval t :=
  let v := volume_structure in
  (* self._norm *)
  n ← lift (getitem v "sNormal"); norm_sag ← lift (get n "dSag" (PInt 0));
  n ← lift (getitem v "sNormal"); norm_cor ← lift (get n "dCor" (PInt 0));
  n ← lift (getitem v "sNormal"); norm_tra ← lift (get n "dTra" (PInt 0));
  let norm := [norm_sag; norm_cor; norm_tra] in
  (* self._rot *)
  rot ← lift (get v "dInPlaneRot" (PInt 0));
  (* self._pos *)
  p ← lift (get v "sPosition" (PDict ∅)); pos_sag ← lift (get p "dSag" (PInt 0));
  p ← lift (get v "sPosition" (PDict ∅)); pos_cor ← lift (get p "dCor" (PInt 0));
  p ← lift (get v "sPosition" (PDict ∅)); pos_tra ← lift (get p "dTra" (PInt 0));
  let pos := [pos_sag; pos_cor; pos_tra] in
  (* self._fov *)
  fov_x ← lift (getitem v "dReadoutFOV");
  fov_y ← lift (getitem v "dPhaseFOV");
  fov_z ← lift (getitem v "dThickness");
  let fov := XYZ fov_x fov_y fov_z in
  (* if res is None: res = {key: int(value) for key, value in self._fov.items()} *)
  res ← match res with
        | None =>
            rx ← lift (py_int (key_x fov));
            ry ← lift (py_int (key_y fov));
            rz ← lift (py_int (key_z fov));
            alloc (XYZ (PInt rx) (PInt ry) (PInt rz))
        | Some l => mret l
        end;
  (* if thickness is None: thickness = self._fov['z'] / res['z'] *)
  thickness ← (if is_None thickness
               then r ← load res; lift (truediv (key_z fov) (key_z r))
               else mret thickness);
  (* if res['z'] == 1: res['z'] = 3; thickness = thickness / 3 *)
  r ← load res;
  thickness ← (if eq_int (key_z r) 1
               then _ ← store_z res (PInt 3); lift (truediv thickness (PInt 3))
               else mret thickness);
  dcm ← lift (calc_norm2dcm norm_sag norm_cor norm_tra rot);
  transformation ← lift (calc_tranformation_matrix dcm pos);
  r ← load res;
  affine ← lift (calc_nifti_affine transformation fov r thickness);
  mret (Build norm rot pos fov res thickness affine transformation name).

(** property [affine] *)
Definition affine (self : t) : matrix := _affine self.

(** property [transformation] *)
Definition transformation (self : t) : matrix := _transformation self.

(** property [shape]: [(self._res['y'], self._res['x'], self._res['z'])] *)
Definition shape (self : t) : Eval (pyval * pyval * pyval) :=
  r ← load (_res self);
  mret (key_y r, key_x r, key_z r).

(** property [fov]: [(self._fov['y'], self._fov['x'], self._fov['z'])] *)
Definition fov (self : t) : pyval * pyval * pyval :=
  (key_y (_fov self), key_x (_fov self), key_z (_fov self)).

End WithExternals.
End volume_orientation.

(** *** class volume *)
Module volume.
Section WithExternals.
Context `{Externals}.

Record t : Type := Build {
  _vol_box : list volume_orientation.t;
  name : option string
}.

Definition __init__ (name : option string) : t := Build [] name.

Definition add (self : t) (vol : volume_orientation.t) : t :=
  Build (_vol_box self ++ [vol]) (name self).

Definition __len__ (self : t) : Z := Z.of_nat (length (_vol_box self)).

Definition out_of_range (self : t) (index : Z) : string :=
  "Item out of range. " +:+ str_name (name self) +:+ " volume has only "
  +:+ str_int (__len__ self) +:+ " items but " +:+ str_int index
  +:+ " is asked.".

Definition __getitem__ (self : t) (index : Z) : result volume_orientation.t :=
  if __len__ self <=? index
  then Raise (IndexError (out_of_range self index))
  else seq_getitem "list" (_vol_box self) index.

Definition __iter__ (self : t) : list volume_orientation.t := _vol_box self.

End WithExternals.
End volume.

(** *** class volume_adjustment(volume) *)
Module volume_adjustment.
Section WithExternals.
Context `{Externals}.

Definition __init__ (xprot : pyval) : Eval volume.t :=
  let self := volume.__init__ (Some "adjustment") in
  a ← lift (get xprot "sAdjData" PNone);
  if is_None a then mret self else
  a ← lift (getitem xprot "sAdjData");
  b ← lift (get a "sAdjVolume" PNone);
  if is_None b then mret self else
  vs ← lift (getpath xprot [Key "sAdjData"; Key "sAdjVolume"]);
  vol ← volume_orientation.__init__ vs None PNone None;
  mret (volume.add self vol).

End WithExternals.
End volume_adjustment.

(** *** class volume_slice(volume) *)
Module volume_slice.
Section WithExternals.
Context `{Externals}.

(** The body of [for SlcVol in ...], for the items still to visit. *)
Fixpoint loop (self : volume.t) (res : loc) (items : list pyval)
    : Eval volume.t :=
  match items with
  | [] => mret self
  | SlcVol :: items' =>
      vol ← volume_orientation.__init__ SlcVol (Some res) PNone None;
      let self := volume.add self vol in
      (* positions.append([...]) *)
      p ← lift (get SlcVol "sPosition" (PDict ∅)); _ ← lift (get p "dSag" (PInt 0));
      p ← lift (get SlcVol "sPosition" (PDict ∅)); _ ← lift (get p "dCor" (PInt 0));
      p ← lift (get SlcVol "sPosition" (PDict ∅)); _ ← lift (get p "dTra" (PInt 0));
      loop self res items'
  end.

Definition __init__ (xprot : pyval) : Eval volume.t :=
  let self := volume.__init__ (Some "slice") in
  a ← lift (get xprot "sSliceArray" PNone);
  if is_None a then mret self else
  a ← lift (getitem xprot "sSliceArray");
  b ← lift (get a "asSlice" PNone);
  if is_None b then mret self else
  rx ← lift (getpath xprot [Key "sKSpace"; Key "lBaseResolution"]);
  ry ← lift (getpath xprot [Key "sKSpace"; Key "lPhaseEncodingLines"]);
  rz ← lift (getpath xprot [Key "sKSpace"; Key "lPartitions"]);
  res ← alloc (XYZ rx ry rz);
  (* res['z'] = res['z'] if xprot['sKSpace']['ucDimension'] == 4 else 1 *)
  d ← lift (getpath xprot [Key "sKSpace"; Key "ucDimension"]);
  z ← (if eq_int d 4 then r ← load res; mret (key_z r) else mret (PInt 1));
  _ ← store_z res z;
  slices ← lift (getpath xprot [Key "sSliceArray"; Key "asSlice"]);
  items ← lift (iter slices);
  loop self res items.

End WithExternals.
End volume_slice.

(** *** class volume_ptx(volume) *)
Module volume_ptx.
Section WithExternals.
Context `{Externals}.

Fixpoint loop (self : volume.t) (items : list pyval) : Eval volume.t :=
  match items with
  | [] => mret self
  | pTxVol :: items' =>
      vol ← volume_orientation.__init__ pTxVol None PNone None;
      loop (volume.add self vol) items'
  end.

Definition __init__ (xprot : pyval) : Eval volume.t :=
  let self := volume.__init__ (Some "pTx") in
  a ← lift (get xprot "sPTXData" PNone);
  if is_None a then mret self else
  a ← lift (getitem xprot "sPTXData");
  b ← lift (get a "asPTXVolume" PNone);
  if is_None b then mret self else
  vols ← lift (getpath xprot [Key "sPTXData"; Key "asPTXVolume"]);
  items ← lift (iter vols);
  loop self items.

End WithExternals.
End volume_ptx.

(** *** class prot_volumes *)
Module prot_volumes.
Section WithExternals.
Context `{Externals}.

Record t : Type := Build {
  xprot : pyval;
  _all_volumes : odict volume.t;
  num_volumes : Z
}.

(** The class attributes: what an instance shows for a field that
    [__init__] did not assign. *)
Definition class_attributes : t := Build PNone [] 0.

Definition unknown_parameter (param : pyval) : exn :=
  ValueError ("Unknown parameter type: " +:+ type_repr param).

Definition sum (l : list Z) : Z := foldl Z.add 0 l.

(** The [if isinstance(param, dict): ... elif os.path.isfile(param): ...
    else: ...] statement of [__init__]: the value assigned to
    [self.xprot]. *)
Definition select_xprot (param : pyval) : result pyval :=
  match param with
  | PDict _ =>
      h ← get param "hdr" PNone;
      if negb (is_None h) then getpath param [Key "hdr"; Key "MeasYaps"] else
      m ← get param "MeasYaps" PNone;
      if negb (is_None m) then getitem param "MeasYaps" else
      u ← get param "ulVersion" PNone;
      if negb (is_None u) then Ok param else
      Raise (unknown_parameter param)
  | _ =>
      isfile ← os_path_isfile param;
      if isfile : bool then str ← read_text param; parse_buffer str
      else Raise (unknown_parameter param)
  end.

Definition __init__ (param : pyval) : Eval t :=
  if is_None param then mret class_attributes else
  xprot ← lift (select_xprot param);
  let all_volumes : odict volume.t := [] in
  slc ← volume_slice.__init__ xprot;
  let all_volumes := odict_set "slc" slc all_volumes in
  ptx ← volume_ptx.__init__ xprot;
  let all_volumes := odict_set "ptx" ptx all_volumes in
  adj ← volume_adjustment.__init__ xprot;
  let all_volumes := odict_set "adj" adj all_volumes in
  mret (Build xprot all_volumes
          (sum (volume.__len__ <$> odict_values all_volumes))).

Definition get_volume_names (self : t) : list string :=
  List.filter (fun name =>
            match odict_get name (_all_volumes self) with
            | Some v => 0 <? volume.__len__ v
            | None => false
            end)
         (odict_keys (_all_volumes self)).

Definition unknown_volume (volume_name : string) : exn :=
  ValueError ("Unknown volume name: " +:+ volume_name).

Definition get (self : t) (volume_name : string) : result volume.t :=
  match odict_get volume_name (_all_volumes self) with
  | Some v => Ok v
  | None => Raise (unknown_volume volume_name)
  end.

End WithExternals.
End prot_volumes.

(* ===================================================================== *)
(** ** protocol.py                                                        *)
(* ===================================================================== *)

(** *** class protocol_parse *)
Module protocol_parse.
Section WithExternals.
Context `{Externals}.

Record t : Type := Build {
  is3D : bool;
  res : xyz;
  isParallelImaging : bool;
  isRefScanSeparate : bool;
  acceleration_factor : list pyval;
  isPartialFourierRO : bool;
  isPartialFourierPE1 : bool;
  isPartialFourierPE2 : bool;
  protName : pyval;
  TR : ndarray;
  TE : ndarray;
  FA : ndarray;
  OS : Z;
  coilName : pyval;
  shims : odict pyval
}.

(** [alShimCurrent[i] if len(alShimCurrent) > i else 0.0] *)
Definition shim_current (alShimCurrent : pyval) (i : Z) : result pyval :=
  n ← len alShimCurrent;
  if i <? n then getindex alShimCurrent i else Ok (PFloat (S754_zero false)).

(** [hdr['Phoenix']['sGRADSPEC'].get('asGPAData', 0.0)[0].get(key, 0)] *)
Definition gpa_offset (hdr : pyval) (key : string) : result pyval :=
  g ← getpath hdr [Key "Phoenix"; Key "sGRADSPEC"];
  a ← get g "asGPAData" (PFloat (S754_zero false));
  a0 ← getindex a 0;
  get a0 key (PInt 0).

(** The expression assigned to [isPartialFourierRO]:
    [abs(self.res['x'] - img.shape[img.dims.index('Col')//2]) > 4] *)
Definition partial_fourier_ro (res : xyz) (img : pyval) : result bool :=
  shape ← attr_shape img;
  dims ← attr_dims img;
  col ← index dims "Col";
  n ← seq_getitem "tuple" shape (col / 2);
  d ← sub (key_x res) (PInt n);
  a ← abs d;
  gt_int a 4.

Definition __init__ (twix_obj : pyval) : result t :=
  hdr ← getitem twix_obj "hdr";
  img ← getitem twix_obj "image";
  d ← getpath hdr [Key "MeasYaps"; Key "sKSpace"; Key "ucDimension"];
  let is3D := eq_int d 4 in
  rx ← getpath hdr [Key "MeasYaps"; Key "sKSpace"; Key "lBaseResolution"];
  ry ← getpath hdr [Key "MeasYaps"; Key "sKSpace"; Key "lPhaseEncodingLines"];
  rz ← getpath hdr [Key "MeasYaps"; Key "sSliceArray"; Key "lSize"];
  let res := XYZ rx ry rz in
  res ← (if is3D
         then p ← getpath hdr [Key "MeasYaps"; Key "sKSpace"; Key "lPartitions"];
              Ok (XYZ (key_x res) (key_y res) p)
         else Ok res);
  m ← getpath hdr [Key "MeasYaps"; Key "sPat"; Key "ucPATMode"];
  let isParallelImaging := eq_int m 2 in
  m ← getpath hdr [Key "MeasYaps"; Key "sPat"; Key "ucRefScanMode"];
  let isRefScanSeparate := eq_int m 4 in
  a1 ← getpath hdr [Key "MeasYaps"; Key "sPat"; Key "lAccelFactPE"];
  a2 ← getpath hdr [Key "MeasYaps"; Key "sPat"; Key "lAccelFact3D"];
  let acceleration_factor := [a1; a2] in
  isPartialFourierRO ← partial_fourier_ro res img;
  f ← getpath hdr [Key "MeasYaps"; Key "sKSpace"; Key "ucPhasePartialFourier"];
  let isPartialFourierPE1 := negb (eq_int f 16) in
  f ← getpath hdr [Key "MeasYaps"; Key "sKSpace"; Key "ucSlicePartialFourier"];
  let isPartialFourierPE2 := negb (eq_int f 16) in
  protName ← getpath hdr [Key "Meas"; Key "tProtocolName"];
  tr ← getpath hdr [Key "Meas"; Key "alTR"; Idx 0];
  tr ← np_array tr;
  TR ← np_truediv tr 1000;
  te ← getpath hdr [Key "Meas"; Key "alTE"];
  te ← np_array te;
  c ← getpath hdr [Key "Meas"; Key "lContrasts"];
  TE ← np_slice te 0 c;
  fa ← getpath hdr [Key "Meas"; Key "adFlipAngleDegree"; Idx 0];
  FA ← np_array fa;
  coilName ← getpath hdr [Key "MeasYaps"; Key "sCoilSelectMeas";
                          Key "aRxCoilSelectData"; Idx 0; Key "asList"; Idx 0;
                          Key "sCoilElementID"; Key "tCoilID"];
  (* read shims *)
  g ← getpath hdr [Key "Phoenix"; Key "sGRADSPEC"];
  alShimCurrent ← get g "alShimCurrent" (PFloat (S754_zero false));
  A00 ← getpath hdr [Key "MeasYaps"; Key "sTXSPEC"; Key "asNucleusInfo"; Idx 0;
                     Key "lFrequency"];
  sX ← gpa_offset hdr "lOffsetX";
  sY ← gpa_offset hdr "lOffsetY";
  sZ ← gpa_offset hdr "lOffsetZ";
  A20 ← shim_current alShimCurrent 0;
  A21 ← shim_current alShimCurrent 1;
  B21 ← shim_current alShimCurrent 2;
  A22 ← shim_current alShimCurrent 3;
  B22 ← shim_current alShimCurrent 4;
  A30 ← shim_current alShimCurrent 5;
  A31 ← shim_current alShimCurrent 6;
  B31 ← shim_current alShimCurrent 7;
  A32 ← shim_current alShimCurrent 8;
  let shims := [("A00", A00); ("X", sX); ("Y", sY); ("Z", sZ); ("A20", A20);
                ("A21", A21); ("B21", B21); ("A22", A22); ("B22", B22);
                ("A30", A30); ("A31", A31); ("B31", B31); ("A32", A32)] in
  mret (Build is3D res isParallelImaging isRefScanSeparate acceleration_factor
          isPartialFourierRO isPartialFourierPE1 isPartialFourierPE2
          protName TR TE FA 0 coilName shims).

End WithExternals.
End protocol_parse.

(* ===================================================================== *)
(** ** A closed instance of the collaborators                             *)
(* ===================================================================== *)

(** The theorems below hold for every instance of [Externals].  To run
    the two modules on concrete protocols, [Symbolic] gives one instance:
    the transformation engine and numpy return the term of the call they
    received, the file system is empty, and [int] reads plain decimal
    numerals. *)
Module Symbolic.

Inductive engine_term : Type :=
  | Norm2Dcm (sag cor tra rot : pyval)
  | TransformationMatrix (dcm : engine_term) (pos : list pyval)
  | NiftiAffine (transformation : engine_term) (fov res : xyz)
      (thickness : pyval).

Inductive array_term : Type :=
  | Array (v : pyval)
  | TrueDiv (a : array_term) (k : Z)
  | Slice (a : array_term) (lo : Z) (hi : pyval).

(** The position of [c] in [ds], counted from [n]. *)
Fixpoint position (c : ascii) (ds : string) (n : Z) : option Z :=
  match ds with
  | EmptyString => None
  | String d ds' => if Ascii.eqb c d then Some n else position c ds' (n + 1)
  end.

Definition digit (c : ascii) : option Z := position c "0123456789" 0.

Fixpoint digits (s : string) (acc : Z) : option Z :=
  match s with
  | EmptyString => Some acc
  | String c s' => d ← digit c; digits s' (10 * acc + d)
  end.

Definition numeral (s : string) : result Z :=
  let invalid := ValueError ("invalid literal for int() with base 10: '"
                             +:+ s +:+ "'") in
  let unsigned (s : string) : option Z :=
    match s with
    | EmptyString => None
    | String _ _ => digits s 0
    end in
  let value :=
    match s with
    | EmptyString => None
    | String c s' =>
        if Ascii.eqb c "-" then Z.opp <$> unsigned s' else unsigned s
    end in
  match value with
  | Some n => Ok n
  | None => Raise invalid
  end.

Definition externals : Externals := {|
  matrix := engine_term;
  ndarray := array_term;
  calc_norm2dcm sag cor tra rot := Ok (Norm2Dcm sag cor tra rot);
  calc_tranformation_matrix dcm pos := Ok (TransformationMatrix dcm pos);
  calc_nifti_affine t fov res thickness := Ok (NiftiAffine t fov res thickness);
  os_path_isfile _ := Ok false;
  read_text _ := Raise (OSError "No such file or directory");
  parse_buffer _ := Ok (PDict ∅);
  np_array v := Ok (Array v);
  np_truediv a k := Ok (TrueDiv a k);
  np_slice a lo hi := Ok (Slice a lo hi);
  int_of_str := numeral
|}.

(** The float literal [n/d], correctly rounded ([flt 1 2] is [0.5]). *)
Definition flt (n d : Z) : pyval :=
  match int_truediv n d with
  | Ok f => PFloat f
  | Raise _ => PNone
  end.

Definition dict (items : list (string * pyval)) : pyval :=
  PDict (list_to_map items).

(** A transverse volume of 200 mm x 200 mm in plane and the given
    thickness. *)
Definition transverse (thickness : pyval) : pyval :=
  dict [("sNormal", dict [("dTra", flt 1 1)]);
        ("dReadoutFOV", flt 200 1);
        ("dPhaseFOV", flt 200 1);
        ("dThickness", thickness)].

(** A volume one millimetre thick: its derived resolution has z = 1. *)
Definition single_slice : pyval := transverse (flt 1 1).

(** A transverse slice of 5 mm at the given position along z. *)
Definition slice_at (z : Z) : pyval :=
  dict [("sNormal", dict [("dTra", flt 1 1)]);
        ("sPosition", dict [("dTra", flt z 1)]);
        ("dReadoutFOV", flt 220 1);
        ("dPhaseFOV", flt 220 1);
        ("dThickness", flt 5 1)].

(** A two-dimensional protocol with three slices, one parallel-transmit
    volume and an adjustment volume. *)
Definition protocol : pyval :=
  dict [("ulVersion", PInt 51130001);
        ("sKSpace", dict [("lBaseResolution", PInt 64);
                          ("lPhaseEncodingLines", PInt 64);
                          ("lPartitions", PInt 32);
                          ("ucDimension", PInt 2)]);
        ("sSliceArray", dict [("lSize", PInt 3);
                              ("asSlice", PList [slice_at 0; slice_at 5;
                                                 slice_at 10])]);
        ("sPTXData", dict [("asPTXVolume", PList [transverse (flt 40 1)])]);
        ("sAdjData", dict [("sAdjVolume", transverse (flt 100 1))])].

(** What a constructor call returns, for calls that do return. *)
Definition returned {A} (default : A) (run : result A * heap) : A :=
  match run with
  | (Ok a, _) => a
  | (Raise _, _) => default
  end.

(** A protocol without slice array whose adjustment volume is half a
    millimetre thick. *)
Definition thin_adjustment : pyval :=
  dict [("ulVersion", PInt 51130001);
        ("sAdjData", dict [("sAdjVolume", transverse (flt 1 2))])].

(** A protocol with an adjustment volume only. *)
Definition adjustment_only : pyval :=
  dict [("ulVersion", PInt 51130001);
        ("sAdjData", dict [("sAdjVolume", transverse (flt 100 1))])].

(** The slice collection of [protocol]. *)
Definition slices : volume.t :=
  returned (volume.__init__ None)
    (volume_slice.__init__ (H := externals) protocol []).

(** The dimensions of a [twix_array], in the order [twixtools] lists
    them, and an acquisition of 64 lines of 64 samples on 32 channels. *)
Definition twix_dims : list string :=
  ["Ide"; "Idd"; "Idc"; "Idb"; "Ida"; "Seg"; "Set"; "Rep"; "Phs"; "Eco";
   "Par"; "Sli"; "Ave"; "Lin"; "Cha"; "Col"].

Definition image_64 : pyval :=
  PTwix (TwixArray twix_dims [1; 1; 1; 1; 1; 1; 1; 1; 1; 1; 1; 3; 1; 64; 32; 64]).

(** The gradient section of a header, complete and with the shim
    currents left out. *)
Definition gradspec : pyval :=
  dict [("asGPAData", PList [dict [("lOffsetX", PInt 12);
                                   ("lOffsetY", PInt (-7));
                                   ("lOffsetZ", PInt 3)]]);
        ("alShimCurrent", PList [PInt 10; PInt 20; PInt 30; PInt 40;
                                 PInt 50])].

Definition gradspec_without_shim_current : pyval :=
  dict [("asGPAData", PList [dict [("lOffsetX", PInt 12);
                                   ("lOffsetY", PInt (-7));
                                   ("lOffsetZ", PInt 3)]])].

Definition gradspec_without_gpa_data : pyval :=
  dict [("alShimCurrent", PList [PInt 10; PInt 20; PInt 30; PInt 40;
                                 PInt 50])].

(** A two-dimensional gradient-echo measurement with base resolution 64,
    as [twixtools] would map it, around the given gradient section. *)
Definition header (sGRADSPEC : pyval) : pyval :=
  dict [("MeasYaps",
         dict [("sKSpace", dict [("ucDimension", PInt 2);
                                 ("lBaseResolution", PInt 64);
                                 ("lPhaseEncodingLines", PInt 64);
                                 ("lPartitions", PInt 1);
                                 ("ucPhasePartialFourier", PInt 16);
                                 ("ucSlicePartialFourier", PInt 16)]);
               ("sSliceArray", dict [("lSize", PInt 3)]);
               ("sPat", dict [("ucPATMode", PInt 1);
                              ("ucRefScanMode", PInt 1);
                              ("lAccelFactPE", PInt 1);
                              ("lAccelFact3D", PInt 1)]);
               ("sCoilSelectMeas",
                dict [("aRxCoilSelectData",
                       PList [dict [("asList",
                         PList [dict [("sCoilElementID",
                           dict [("tCoilID", PStr "Head_32")])]])]])]);
               ("sTXSPEC",
                dict [("asNucleusInfo",
                       PList [dict [("lFrequency", PInt 123255000)]])])]);
        ("Meas",
         dict [("tProtocolName", PStr "gre");
               ("alTR", PList [PInt 10000]);
               ("alTE", PList [PInt 4000; PInt 8000]);
               ("lContrasts", PInt 1);
               ("adFlipAngleDegree", PList [flt 15 1])]);
        ("Phoenix", dict [("sGRADSPEC", sGRADSPEC)])].

Definition twix (sGRADSPEC : pyval) : pyval :=
  dict [("hdr", header sGRADSPEC); ("image", image_64)].

(** The registry of [protocol], and the store its construction leaves. *)
Definition registry : prot_volumes.t :=
  returned prot_volumes.class_attributes
    (prot_volumes.__init__ (H := externals) protocol []).

Definition registry_store : heap :=
  snd (prot_volumes.__init__ (H := externals) protocol []).

End Symbolic.

(* ===================================================================== *)
(** ** Vocabulary of the statements                                       *)
(* ===================================================================== *)

Section Vocabulary.
Context `{Externals}.

(** The resolution a descriptor starts from: the dictionary supplied as
    [res], or the one derived from the field of view. *)
Definition effective_resolution (v : pyval) (res : option loc) (h : heap)
    : result xyz :=
  match res with
  | Some l => match h !! l with Some r => Ok r | None => Raise dangling end
  | None =>
      fx ← getitem v "dReadoutFOV";
      fy ← getitem v "dPhaseFOV";
      fz ← getitem v "dThickness";
      rx ← py_int fx; ry ← py_int fy; rz ← py_int fz;
      Ok (XYZ (PInt rx) (PInt ry) (PInt rz))
  end.

(** The thickness a descriptor has before the single-slice correction:
    the one supplied, or the slice field of view divided by the z
    resolution. *)
Definition nominal_thickness (v : pyval) (r : xyz) (thickness : pyval)
    : result pyval :=
  if is_None thickness
  then fz ← getitem v "dThickness"; truediv fz (key_z r)
  else Ok thickness.

(** A volume structure as the protocol parser produces it: a normal, an
    optional position, and the three extents of the field of view as
    floats. *)
Definition float_geometry (v : pyval) : Prop :=
  ∃ d n fx fy fz,
    v = PDict d ∧ d !! "sNormal" = Some (PDict n) ∧
    (d !! "sPosition" = None ∨ ∃ p, d !! "sPosition" = Some (PDict p)) ∧
    d !! "dReadoutFOV" = Some (PFloat fx) ∧
    d !! "dPhaseFOV" = Some (PFloat fy) ∧
    d !! "dThickness" = Some (PFloat fz).

(** The transformation engine does not raise. *)
Definition engine_returns : Prop :=
  (∀ sag cor tra rot, ∃ m, calc_norm2dcm sag cor tra rot = Ok m) ∧
  (∀ dcm pos, ∃ m, calc_tranformation_matrix dcm pos = Ok m) ∧
  (∀ t fov res thickness, ∃ m, calc_nifti_affine t fov res thickness = Ok m).

End Vocabulary.

Section RegistryVocabulary.
Context `{Externals}.

(** [param] is a mapping in which [key] is present with a value other
    than [None]: what [param.get(key, None) is not None] tests. *)
Definition holds (param : pyval) (key : string) : Prop :=
  ∃ d x, param = PDict d ∧ d !! key = Some x ∧ x ≠ PNone.

(** One of the three header keys selects the protocol. *)
Definition selects_header (param : pyval) : Prop :=
  holds param "hdr" ∨ holds param "MeasYaps" ∨ holds param "ulVersion".

(** [param] is a path to an existing file. *)
Definition existing_file (param : pyval) : Prop :=
  os_path_isfile param = Ok true.

(** The shapes of argument the construction contract lists: a mapping
    that contains one of the recognised header keys, or a path to an
    existing file. *)
Definition recognised_shape (param : pyval) : Prop :=
  (∃ d key, param = PDict d ∧ In key ["hdr"; "MeasYaps"; "ulVersion"] ∧
            is_Some (d !! key))
  ∨ existing_file param.

(** The slice array is missing from the protocol, at either level:
    ['sSliceArray'] is absent (or [None]), or it has no ['asSlice']. *)
Definition slice_array_absent (xprot : pyval) : Prop :=
  get xprot "sSliceArray" PNone = Ok PNone ∨
  ∃ a, getitem xprot "sSliceArray" = Ok a ∧ get a "asSlice" PNone = Ok PNone.

End RegistryVocabulary.

(** [starts_with s t]: the string [t] begins with [s]. *)
Fixpoint starts_with (s t : string) : bool :=
  match s, t with
  | EmptyString, _ => true
  | String a s', String b t' => Ascii.eqb a b && starts_with s' t'
  | String _ _, EmptyString => false
  end.

(** [mentions s t]: [s] occurs in the text [t]. *)
Fixpoint mentions (s t : string) : bool :=
  match t with
  | EmptyString => starts_with s t
  | String _ t' => starts_with s t || mentions s t'
  end.

(** The partial-Fourier-readout test in the words of the specification:
    the expected sample count [res['x']] and the extent of the image data
    along its ['Col'] dimension differ by more than 4. *)
Definition readout_samples_differ (res : xyz) (img : pyval) : result bool :=
  shape ← attr_shape img;
  dims ← attr_dims img;
  col ← index dims "Col";
  n ← seq_getitem "tuple" shape col;
  d ← sub (key_x res) (PInt n);
  a ← abs d;
  gt_int a 4.

(** The message lists the three collection names. *)
Definition names_valid_set (msg : string) : bool :=
  mentions "slc" msg && mentions "ptx" msg && mentions "adj" msg.

(* ===================================================================== *)
(** ** Further vocabulary and worked examples                             *)
(* ===================================================================== *)

(** [d.get(k, default)] on the content of a dictionary. *)
Definition lookup_default (d : gmap string pyval) (k : string) (default : pyval)
    : pyval :=
  match d !! k with Some x => x | None => default end.

(** [l[i] if len(l) > i else default] on the content of a list. *)
Definition item_or_default (l : list pyval) (i : nat) (default : pyval) : pyval :=
  match l !! i with Some x => x | None => default end.

(** The single-slice correction applied to a resolution dictionary. *)
Definition single_slice_fix (r : xyz) : xyz :=
  XYZ (key_x r) (key_y r) (if eq_int (key_z r) 1 then PInt 3 else key_z r).

(** [xprot[section][key]] is missing: the section is absent (or [None]),
    or it lacks the key (or holds [None] for it). *)
Definition subsection_absent (xprot : pyval) (section key : string) : Prop :=
  Py.get xprot section PNone = Ok PNone ∨
  ∃ a, getitem xprot section = Ok a ∧ Py.get a key PNone = Ok PNone.

(** The thickness derived for [item] from the resolution [r]:
    [item['dThickness'] / r['z']]. *)
Definition derived_thickness (item : pyval) (r : xyz) (t : pyval) : Prop :=
  ∃ fz, getitem item "dThickness" = Ok fz ∧ truediv fz (key_z r) = Ok t.

(** Descriptors, collections and a summary written out in full, for the
    protocols of [Symbolic]. *)
Module Examples.
Import Symbolic.

(** The descriptor the symbolic engine yields for a transverse volume
    without rotation, at the origin unless [pos_tra] is given. *)
Definition descriptor (pos_tra : pyval) (fov res : xyz) (l : loc)
    (thickness : pyval) : volume_orientation.t (H := externals) :=
  let pos := [PInt 0; PInt 0; pos_tra] in
  let transformation :=
    TransformationMatrix (Norm2Dcm (PInt 0) (PInt 0) (flt 1 1) (PInt 0)) pos in
  volume_orientation.Build [PInt 0; PInt 0; flt 1 1] (PInt 0) pos fov l
    thickness
    (NiftiAffine transformation fov res thickness : @matrix externals)
    (transformation : @matrix externals) None.

(** A transverse volume 5 mm thick and its descriptor. *)
Definition five_mm : pyval := transverse (flt 5 1).

Definition five_mm_descriptor : volume_orientation.t (H := externals) :=
  descriptor (PInt 0) (XYZ (flt 200 1) (flt 200 1) (flt 5 1))
    (XYZ (PInt 200) (PInt 200) (PInt 5)) 0%nat (flt 1 1).

(** The descriptor of [slice_at z] built on the shared resolution at
    location 0, once that resolution reads (64, 64, 3). *)
Definition slice_descriptor (z : Z) (thickness : pyval)
    : volume_orientation.t (H := externals) :=
  descriptor (flt z 1) (XYZ (flt 220 1) (flt 220 1) (flt 5 1))
    (XYZ (PInt 64) (PInt 64) (PInt 3)) 0%nat thickness.

(** 5.0 / 1 / 3 and 5.0 / 3 *)
Definition five_thirds : pyval :=
  match truediv (flt 5 1) (PInt 3) with Ok t => t | Raise _ => PNone end.

(** The three collections of [protocol], each built on an empty store. *)
Definition slice_collection : volume.t (H := externals) :=
  volume.Build [slice_descriptor 0 five_thirds; slice_descriptor 5 five_thirds;
                slice_descriptor 10 five_thirds] (Some "slice").

Definition ptx_collection : volume.t (H := externals) :=
  volume.Build
    [descriptor (PInt 0) (XYZ (flt 200 1) (flt 200 1) (flt 40 1))
       (XYZ (PInt 200) (PInt 200) (PInt 40)) 0%nat (flt 1 1)]
    (Some "pTx").

Definition adjustment_collection : volume.t (H := externals) :=
  volume.Build
    [descriptor (PInt 0) (XYZ (flt 200 1) (flt 200 1) (flt 100 1))
       (XYZ (PInt 200) (PInt 200) (PInt 100)) 0%nat (flt 1 1)]
    (Some "adjustment").

(** A volume structure without ['dThickness']. *)
Definition no_thickness_items : gmap string pyval :=
  list_to_map [("sNormal", dict [("dTra", flt 1 1)]);
               ("dReadoutFOV", flt 200 1);
               ("dPhaseFOV", flt 200 1)].

Definition no_thickness : pyval := PDict no_thickness_items.

(** A volume 0.5 mm thick. *)
Definition half_mm : pyval := transverse (flt 1 2).

(** The slices of [protocol]. *)
Definition protocol_slices : list pyval := [slice_at 0; slice_at 5; slice_at 10].

(** The summary of [twix gradspec]. *)
Definition summary : protocol_parse.t (H := externals) :=
  protocol_parse.Build false (XYZ (PInt 64) (PInt 64) (PInt 3)) false false
    [PInt 1; PInt 1] true false false (PStr "gre")
    (TrueDiv (Array (PInt 10000)) 1000 : @ndarray externals)
    (Slice (Array (PList [PInt 4000; PInt 8000])) 0 (PInt 1)
       : @ndarray externals)
    (Array (flt 15 1) : @ndarray externals)
    0 (PStr "Head_32")
    [("A00", PInt 123255000); ("X", PInt 12); ("Y", PInt (-7)); ("Z", PInt 3);
     ("A20", PInt 10); ("A21", PInt 20); ("B21", PInt 30); ("A22", PInt 40);
     ("B22", PInt 50); ("A30", flt 0 1); ("A31", flt 0 1); ("B31", flt 0 1);
     ("A32", flt 0 1)].

End Examples.

(* ===================================================================== *)
(** ** Reasoning about evaluation                                         *)
(* ===================================================================== *)

Section EvalLemmas.
Context {A B : Type}.

Lemma result_bind_Ok (m : result A) (k : A → result B) (b : B) :
  m ≫= k = Ok b → ∃ a, m = Ok a ∧ k a = Ok b.
Proof. destruct m as [a|e]; [eauto | discriminate]. Qed.

Lemma result_bind_Raise (m : result A) (k : A → result B) (e : exn) :
  m = Raise e → m ≫= k = Raise e.
Proof. now intros ->. Qed.

Lemma Eval_bind_Ok (m : Eval A) (k : A → Eval B) h b h' :
  (m ≫= k) h = (Ok b, h') → ∃ a h1, m h = (Ok a, h1) ∧ k a h1 = (Ok b, h').
Proof.
  unfold mbind, Eval_bind. destruct (m h) as [[a|e] h1]; [eauto | discriminate].
Qed.

Lemma Eval_bind_step (m : Eval A) (k : A → Eval B) h a h1 :
  m h = (Ok a, h1) → (m ≫= k) h = k a h1.
Proof. unfold mbind, Eval_bind. now intros ->. Qed.

Lemma Eval_bind_Raise (m : Eval A) (k : A → Eval B) h e h1 :
  m h = (Raise e, h1) → (m ≫= k) h = (Raise e, h1).
Proof. unfold mbind, Eval_bind. now intros ->. Qed.

Lemma lift_Ok (r : result A) h a h' :
  lift r h = (Ok a, h') → r = Ok a ∧ h' = h.
Proof. unfold lift. now intros [= -> ->]. Qed.

Lemma bind_lift_Ok (r : result A) (k : A → Eval B) h b h' :
  (lift r ≫= k) h = (Ok b, h') → ∃ a, r = Ok a ∧ k a h = (Ok b, h').
Proof.
  intros (a & h1 & [-> ->]%lift_Ok & Hk)%Eval_bind_Ok. eauto.
Qed.

Lemma bind_lift_step (r : result A) (k : A → Eval B) h a :
  r = Ok a → (lift r ≫= k) h = k a h.
Proof. now intros ->. Qed.

Lemma bind_lift_Raise (r : result A) (k : A → Eval B) h e :
  r = Raise e → (lift r ≫= k) h = (Raise e, h).
Proof. now intros ->. Qed.

Lemma mret_Ok (a b : A) (h h' : heap) :
  (mret a : Eval A) h = (Ok b, h') → b = a ∧ h' = h.
Proof. now intros [= -> ->]. Qed.

End EvalLemmas.

Lemma load_Ok l h r h' : load l h = (Ok r, h') → h !! l = Some r ∧ h' = h.
Proof. unfold load. destruct (h !! l); now intros [= -> ->]. Qed.

Lemma load_step l h r : h !! l = Some r → load l h = (Ok r, h).
Proof. unfold load. now intros ->. Qed.

Lemma store_z_Ok l v h u h' :
  store_z l v h = (Ok u, h') →
  ∃ r, h !! l = Some r ∧ h' = <[l := XYZ (key_x r) (key_y r) v]> h.
Proof. unfold store_z. destruct (h !! l) as [r|]; [|discriminate]. intros [= _ <-]. eauto. Qed.

Lemma store_z_step l v h r :
  h !! l = Some r → store_z l v h = (Ok tt, <[l := XYZ (key_x r) (key_y r) v]> h).
Proof. unfold store_z. now intros ->. Qed.

Lemma alloc_lookup (h : heap) (d : xyz) : (h ++ [d]) !! length h = Some d.
Proof. rewrite lookup_app_r by lia. now rewrite Nat.sub_diag. Qed.

Lemma starts_with_app (s q : string) : starts_with s (s +:+ q) = true.
Proof.
  induction s as [|a s IH]; [reflexivity|].
  change (String a s +:+ q) with (String a (s +:+ q)).
  cbn [starts_with]. now rewrite Ascii.eqb_refl, IH.
Qed.

Lemma append_assoc (a b c : string) : (a +:+ b) +:+ c = a +:+ b +:+ c.
Proof.
  induction a as [|x a IH]; [reflexivity|].
  change ((String x a +:+ b) +:+ c) with (String x ((a +:+ b) +:+ c)).
  now rewrite IH.
Qed.

Lemma mentions_starts_with (s t : string) :
  starts_with s t = true → mentions s t = true.
Proof. destruct t; cbn [mentions]; [done | now intros ->]. Qed.

Lemma mentions_app (p s q : string) : mentions s (p +:+ s +:+ q) = true.
Proof.
  induction p as [|a p IH].
  - change ("" +:+ s +:+ q) with (s +:+ q).
    apply mentions_starts_with, starts_with_app.
  - change (String a p +:+ s +:+ q) with (String a (p +:+ s +:+ q)).
    cbn [mentions]. rewrite IH. apply orb_true_r.
Qed.

(** Peel the leading statement off an evaluation that returned. *)
Ltac eval_inv H :=
  match type of H with
  | (lift _ ≫= _) _ = (Ok _, _) =>
      let a := fresh "a" in let E := fresh "E" in
      apply bind_lift_Ok in H as (a & E & H)
  | (load _ ≫= _) _ = (Ok _, _) =>
      let a := fresh "r" in let h := fresh "h" in let E := fresh "E" in
      apply Eval_bind_Ok in H as (a & h & [E ->]%load_Ok & H)
  | (_ ≫= _) _ = (Ok _, _) =>
      let a := fresh "a" in let h := fresh "h" in let E := fresh "E" in
      apply Eval_bind_Ok in H as (a & h & E & H)
  end.

(* ===================================================================== *)
(** ** The volume descriptor                                              *)
(* ===================================================================== *)

Section VolumeDescriptor.
Context `{Externals}.
Import volume_orientation.

(** What a returning constructor call has done, statement by statement. *)
Lemma init_Ok_inv v res th name h d h' :
  __init__ v res th name h = (Ok d, h') →
  ∃ fx fy fz h1 r1 t1,
    getitem v "dReadoutFOV" = Ok fx ∧
    getitem v "dPhaseFOV" = Ok fy ∧
    getitem v "dThickness" = Ok fz ∧
    _fov d = XYZ fx fy fz ∧
    _name d = name ∧
    match res with
    | None => ∃ rx ry rz, py_int fx = Ok rx ∧ py_int fy = Ok ry ∧ py_int fz = Ok rz ∧
                          _res d = length h ∧ h1 = h ++ [XYZ (PInt rx) (PInt ry) (PInt rz)]
    | Some l => _res d = l ∧ h1 = h
    end ∧
    h1 !! _res d = Some r1 ∧
    effective_resolution v res h = Ok r1 ∧
    (if is_None th then truediv fz (key_z r1) = Ok t1 else t1 = th) ∧
    (if eq_int (key_z r1) 1
     then h' = <[_res d := XYZ (key_x r1) (key_y r1) (PInt 3)]> h1 ∧
          truediv t1 (PInt 3) = Ok (_thickness d)
     else h' = h1 ∧ _thickness d = t1).
Proof.
  unfold __init__. intros Hi.
  do 13 eval_inv Hi. clear E E0 E1 E2 E3 E4 E5 E6 E7 E8 E9 E10 E11.
  apply bind_lift_Ok in Hi as (fx & Hfx & Hi).
  apply bind_lift_Ok in Hi as (fy & Hfy & Hi).
  apply bind_lift_Ok in Hi as (fz & Hfz & Hi).
  apply Eval_bind_Ok in Hi as (l & h1 & Hres & Hi).
  apply Eval_bind_Ok in Hi as (t1 & h2 & Hth & Hi).
  apply Eval_bind_Ok in Hi as (r1 & h3 & [Hr1 ->]%load_Ok & Hi).
  apply Eval_bind_Ok in Hi as (t2 & h4 & Hfix & Hi).
  apply bind_lift_Ok in Hi as (dcm & _ & Hi).
  apply bind_lift_Ok in Hi as (tr & _ & Hi).
  apply Eval_bind_Ok in Hi as (r2 & h5 & [Hr2 ->]%load_Ok & Hi).
  apply bind_lift_Ok in Hi as (aff & _ & Hi).
  apply mret_Ok in Hi as [-> ->]. cbn [_fov _res _thickness _name].
  assert (h2 = h1 ∧ if is_None th then truediv fz (key_z r1) = Ok t1 else t1 = th)
    as [-> Ht1].
  { destruct (is_None th).
    - apply Eval_bind_Ok in Hth as (r & h6 & [Hr ->]%load_Ok & [Ht ->]%lift_Ok).
      cbn [key_z] in Ht. split; [done | congruence].
    - now apply mret_Ok in Hth as [-> ->]. }
  exists fx, fy, fz, h1, r1, t1. repeat split; try done.
  - destruct res as [l0|].
    + now apply mret_Ok in Hres as [-> ->].
    + cbn [key_x key_y key_z] in Hres.
      apply bind_lift_Ok in Hres as (rx & Hrx & Hres).
      apply bind_lift_Ok in Hres as (ry & Hry & Hres).
      apply bind_lift_Ok in Hres as (rz & Hrz & Hres).
      injection Hres as <- <-. exists rx, ry, rz. done.
  - unfold effective_resolution. destruct res as [l0|].
    + apply mret_Ok in Hres as [-> ->]. now rewrite Hr1.
    + cbn [key_x key_y key_z] in Hres. rewrite Hfx, Hfy, Hfz.
      apply bind_lift_Ok in Hres as (rx & Hrx & Hres).
      apply bind_lift_Ok in Hres as (ry & Hry & Hres).
      apply bind_lift_Ok in Hres as (rz & Hrz & Hres).
      injection Hres as <- <-. cbn [mbind result_bind].
      rewrite Hrx, Hry, Hrz. cbn [mbind result_bind].
      rewrite alloc_lookup in Hr1. congruence.
  - destruct (eq_int (key_z r1) 1).
    + apply Eval_bind_Ok in Hfix as (u & h6 & (r & Hr & ->)%store_z_Ok & [Ht ->]%lift_Ok).
      split; [congruence | done].
    + now apply mret_Ok in Hfix as [-> ->].
Qed.


Lemma truediv_float_by_one (f : float) (z : pyval) :
  eq_int z 1 = true → ∃ q, truediv (PFloat f) z = Ok (PFloat q).
Proof.
  unfold eq_int, truediv. destruct z as [|b|x|g| | | |]; cbn [as_number]; try discriminate.
  - destruct b; [|discriminate]. intros _. cbn. eauto.
  - intros ->%Z.eqb_eq. cbn. eauto.
  - intros Hg. unfold float_truediv, mbind, result_bind.
    destruct g; cbn in Hg |- *; try discriminate; eauto.
Qed.

Lemma truediv_float_by_three (f : float) :
  ∃ q, truediv (PFloat f) (PInt 3) = Ok (PFloat q).
Proof. cbn. eauto. Qed.

Lemma init_returns v res th name h r0 :
  float_geometry v → (th = PNone ∨ ∃ t, th = PFloat t) → engine_returns →
  effective_resolution v res h = Ok r0 → eq_int (key_z r0) 1 = true →
  ∃ d h', __init__ v res th name h = (Ok d, h').
Proof.
  intros (dv & n & fx & fy & fz & -> & Hn & Hp & Hfx & Hfy & Hfz) Hth
    (Hdcm & Htr & Haff) Hr0 Hz.
  unfold __init__.
  assert (getitem (PDict dv) "sNormal" = Ok (PDict n)) as En
    by (unfold getitem; now rewrite Hn).
  assert (∃ p, get (PDict dv) "sPosition" (PDict ∅) = Ok (PDict p)) as [p Ep].
  { unfold get. destruct Hp as [-> | [p ->]]; eauto. }
  assert (getitem (PDict dv) "dReadoutFOV" = Ok (PFloat fx)) as Ex
    by (unfold getitem; now rewrite Hfx).
  assert (getitem (PDict dv) "dPhaseFOV" = Ok (PFloat fy)) as Ey
    by (unfold getitem; now rewrite Hfy).
  assert (getitem (PDict dv) "dThickness" = Ok (PFloat fz)) as Ez
    by (unfold getitem; now rewrite Hfz).
  repeat (erewrite bind_lift_step; [| first [eassumption | reflexivity]]).
  cbn [key_x key_y key_z].
  match goal with |- ∃ d h', (?m ≫= _) h = _ =>
    assert (∃ l h1, m h = (Ok l, h1) ∧ h1 !! l = Some r0) as (l & h1 & Hres & Hl)
  end.
  { destruct res as [l|]; unfold effective_resolution in Hr0.
    - destruct (h !! l) as [r|] eqn:Hl; [|discriminate].
      injection Hr0 as ->. now exists l, h.
    - rewrite Ex, Ey, Ez in Hr0. cbn [mbind result_bind] in Hr0.
      apply result_bind_Ok in Hr0 as (rx & Hrx & Hr0).
      apply result_bind_Ok in Hr0 as (ry & Hry & Hr0).
      apply result_bind_Ok in Hr0 as (rz & Hrz & [= <-]).
      repeat (erewrite bind_lift_step; [| eassumption]).
      eexists _, _. split; [reflexivity | apply alloc_lookup]. }
  erewrite Eval_bind_step by exact Hres.
  destruct (truediv_float_by_one fz (key_z r0) Hz) as [q Hq].
  assert (∃ t, (if is_None th
                then load l ≫= λ r, lift (truediv (PFloat fz) (key_z r))
                else mret th) h1 = (Ok (PFloat t), h1)) as [t Ht].
  { destruct Hth as [-> | [t ->]]; cbn [is_None].
    - exists q. erewrite Eval_bind_step by (apply load_step; exact Hl). unfold lift. now rewrite Hq.
    - now exists t. }
  erewrite Eval_bind_step by exact Ht.
  erewrite Eval_bind_step by (apply load_step; exact Hl).
  rewrite Hz.
  destruct (truediv_float_by_three t) as [q3 Hq3].
  erewrite Eval_bind_step; cycle 1.
  { erewrite Eval_bind_step by (apply store_z_step; exact Hl). unfold lift. now rewrite Hq3. }
  edestruct Hdcm as [dcm ->]. erewrite bind_lift_step by reflexivity.
  edestruct Htr as [tr ->]. erewrite bind_lift_step by reflexivity.
  erewrite Eval_bind_step; cycle 1.
  { apply load_step. apply list_lookup_insert_eq. now apply lookup_lt_Some in Hl. }
  edestruct Haff as [aff ->]. erewrite bind_lift_step by reflexivity.
  eexists _, _. reflexivity.
Qed.

(** C1.  When the resolution a descriptor starts from (supplied, or
    derived from the field of view) has z equal to 1, every descriptor the
    constructor returns has [_res['z'] == 3] and a thickness that is the
    nominal thickness (the supplied one, or [fov z / res z]) divided by 3;
    and the constructor does return on a volume structure with float
    extents whenever the transformation engine does. *)
Theorem single_slice_resolution_and_thickness v res thickness name h r0 :
  effective_resolution v res h = Ok r0 →
  eq_int (key_z r0) 1 = true →
  (∀ d h', __init__ v res thickness name h = (Ok d, h') →
     ∃ r t0, h' !! _res d = Some r ∧ key_z r = PInt 3 ∧
             nominal_thickness v r0 thickness = Ok t0 ∧
             truediv t0 (PInt 3) = Ok (_thickness d))
  ∧ (float_geometry v → (thickness = PNone ∨ ∃ t, thickness = PFloat t) →
     engine_returns →
     ∃ d h', __init__ v res thickness name h = (Ok d, h')).
Proof.
  intros Hr0 Hz. split.
  - intros d h' Hi.
    apply init_Ok_inv in Hi
      as (fx & fy & fz & h1 & r1 & t1 & _ & _ & Hfz & _ & _ & _ & Hr1 & Hr0' & Ht1 & Hfix).
    assert (r1 = r0) as -> by congruence.
    rewrite Hz in Hfix. destruct Hfix as [-> Hdiv].
    exists (XYZ (key_x r0) (key_y r0) (PInt 3)), t1. repeat split.
    + apply list_lookup_insert_eq. now apply lookup_lt_Some in Hr1.
    + unfold nominal_thickness. destruct (is_None thickness); [|congruence].
      now rewrite Hfz.
    + exact Hdiv.
  - intros Hg Hth He. now apply (init_returns v res thickness name h r0).
Qed.

(** C7.  For every constructed descriptor, [shape] is
    [(res y, res x, res z)] of its resolution dictionary, whose x and y are
    those of the resolution it started from, and [fov] is
    [(dPhaseFOV, dReadoutFOV, dThickness)]. *)
Theorem shape_and_fov_swap_axes v res thickness name h d h' :
  __init__ v res thickness name h = (Ok d, h') →
  ∃ r r0 fx fy fz,
    h' !! _res d = Some r ∧
    shape d h' = (Ok (key_y r, key_x r, key_z r), h') ∧
    effective_resolution v res h = Ok r0 ∧
    key_x r = key_x r0 ∧ key_y r = key_y r0 ∧
    getitem v "dReadoutFOV" = Ok fx ∧
    getitem v "dPhaseFOV" = Ok fy ∧
    getitem v "dThickness" = Ok fz ∧
    fov d = (fy, fx, fz).
Proof.
  intros Hi.
  apply init_Ok_inv in Hi
    as (fx & fy & fz & h1 & r0 & t1 & Hfx & Hfy & Hfz & Hfov & _ & _ & Hl & Hr0 & _ & Hfix).
  assert (∃ r, h' !! _res d = Some r ∧ key_x r = key_x r0 ∧ key_y r = key_y r0)
    as (r & Hr & Hx & Hy).
  { destruct (eq_int (key_z r0) 1).
    - destruct Hfix as [-> _]. eexists.
      split; [apply list_lookup_insert_eq; now apply lookup_lt_Some in Hl|done].
    - destruct Hfix as [-> _]. now exists r0. }
  exists r, r0, fx, fy, fz. repeat split; try done.
  - unfold shape. now erewrite Eval_bind_step by (apply load_step; exact Hr).
  - unfold fov. now rewrite Hfov.
Qed.

End VolumeDescriptor.


(** The one-millimetre transverse volume: its derived resolution is
    (200, 200, 1), and it is built with z = 3 and a third of 1.0. *)
Lemma single_slice_resolution_and_thickness_witness :
  effective_resolution (H := Symbolic.externals) Symbolic.single_slice None []
    = Ok (XYZ (PInt 200) (PInt 200) (PInt 1)) ∧
  eq_int (PInt 1) 1 = true ∧
  (∀ d h',
     volume_orientation.__init__ (H := Symbolic.externals)
       Symbolic.single_slice None PNone None [] = (Ok d, h') →
     ∃ r t0, h' !! volume_orientation._res d = Some r ∧ key_z r = PInt 3 ∧
       nominal_thickness Symbolic.single_slice
         (XYZ (PInt 200) (PInt 200) (PInt 1)) PNone = Ok t0 ∧
       truediv t0 (PInt 3) = Ok (volume_orientation._thickness d)) ∧
  (∃ d h',
     volume_orientation.__init__ (H := Symbolic.externals)
       Symbolic.single_slice None PNone None [] = (Ok d, h')).
Proof.
  assert (effective_resolution (H := Symbolic.externals) Symbolic.single_slice None []
    = Ok (XYZ (PInt 200) (PInt 200) (PInt 1))) as Hr by (vm_compute; reflexivity).
  assert (eq_int (PInt 1) 1 = true) as Hz by reflexivity.
  destruct (single_slice_resolution_and_thickness (H := Symbolic.externals)
              Symbolic.single_slice None PNone None [] _ Hr Hz) as [HA HB].
  split; [exact Hr | split; [exact Hz | split; [exact HA |]]].
  apply HB.
  - eexists _, _, _, _, _. split; [reflexivity|].
    repeat split; try (vm_compute; reflexivity). left. vm_compute. reflexivity.
  - now left.
  - repeat split; intros; eexists; reflexivity.
Defined.

(** A five-millimetre transverse volume. *)
Lemma shape_and_fov_swap_axes_witness :
  ∃ d h',
    volume_orientation.__init__ (H := Symbolic.externals)
      (Symbolic.transverse (Symbolic.flt 5 1)) None PNone None [] = (Ok d, h') ∧
    ∃ r r0 fx fy fz,
      h' !! volume_orientation._res d = Some r ∧
      volume_orientation.shape d h' = (Ok (key_y r, key_x r, key_z r), h') ∧
      effective_resolution (H := Symbolic.externals)
        (Symbolic.transverse (Symbolic.flt 5 1)) None [] = Ok r0 ∧
      key_x r = key_x r0 ∧ key_y r = key_y r0 ∧
      getitem (Symbolic.transverse (Symbolic.flt 5 1)) "dReadoutFOV" = Ok fx ∧
      getitem (Symbolic.transverse (Symbolic.flt 5 1)) "dPhaseFOV" = Ok fy ∧
      getitem (Symbolic.transverse (Symbolic.flt 5 1)) "dThickness" = Ok fz ∧
      volume_orientation.fov d = (fy, fx, fz).
Proof.
  eexists _, _. split; [vm_compute; reflexivity|].
  apply (shape_and_fov_swap_axes (H := Symbolic.externals)
           (Symbolic.transverse (Symbolic.flt 5 1)) None PNone None []).
  vm_compute. reflexivity.
Defined.

(** C9.  A volume structure whose field of view is positive on every
    axis, with a slice extent of 0.5 mm and neither resolution nor
    thickness supplied: [int(0.5)] is 0, and the constructor raises
    [ZeroDivisionError], whatever the collaborators are. *)
Theorem truncated_slice_fov_divides_by_zero :
  ∃ v fx fy fz,
    getitem v "dReadoutFOV" = Ok fx ∧ gt_int fx 0 = Ok true ∧
    getitem v "dPhaseFOV" = Ok fy ∧ gt_int fy 0 = Ok true ∧
    getitem v "dThickness" = Ok fz ∧ gt_int fz 0 = Ok true ∧
    ∀ (E : Externals) name h,
      py_int fz = Ok 0 ∧
      ∃ msg h', volume_orientation.__init__ v None PNone name h
                = (Raise (ZeroDivisionError msg), h').
Proof.
  exists (Symbolic.transverse (Symbolic.flt 1 2)),
    (Symbolic.flt 200 1), (Symbolic.flt 200 1), (Symbolic.flt 1 2).
  do 6 (split; [vm_compute; reflexivity|]).
  intros E name h. split; [reflexivity|].
  unfold volume_orientation.__init__.
  do 16 (erewrite bind_lift_step; [| vm_compute; reflexivity]).
  cbv beta iota. cbn [key_x key_y key_z].
  rewrite (Eval_bind_step _ _ h (length h)
             (h ++ [XYZ (PInt 200) (PInt 200) (PInt 0)])); cycle 1.
  { do 3 (erewrite bind_lift_step; [| vm_compute; reflexivity]). reflexivity. }
  cbn [is_None].
  erewrite Eval_bind_Raise; [eexists _, _; reflexivity|].
  erewrite Eval_bind_step by (apply load_step, alloc_lookup).
  cbn [key_z]. vm_compute. reflexivity.
Qed.

(* ===================================================================== *)
(** ** Volume collections                                                 *)
(* ===================================================================== *)

Section Collection.
Context `{Externals}.
Import volume.

(** C6.  Indexing a collection at [i >= len(c)] raises [IndexError]; the
    message is the f-string of [__getitem__] and shows the name of the
    collection, its size and the index asked for. *)
Theorem getitem_out_of_range (c : volume.t) (i : Z) :
  __len__ c <= i →
  ∃ msg,
    __getitem__ c i = Raise (IndexError msg) ∧
    msg = "Item out of range. " +:+ str_name (name c) +:+ " volume has only "
          +:+ str_int (__len__ c) +:+ " items but " +:+ str_int i
          +:+ " is asked." ∧
    mentions (str_name (name c)) msg = true ∧
    mentions (str_int (__len__ c)) msg = true ∧
    mentions (str_int i) msg = true.
Proof.
  intros Hi. eexists. split; [|split; [reflexivity|]].
  - unfold __getitem__. apply Z.leb_le in Hi. now rewrite Hi.
  - unfold out_of_range. repeat split.
    + apply mentions_app.
    + rewrite <- (append_assoc "Item out of range. " (str_name (name c))).
      rewrite <- append_assoc. apply mentions_app.
    + rewrite <- (append_assoc "Item out of range. " (str_name (name c))).
      rewrite <- append_assoc.
      rewrite <- (append_assoc _ (str_int (__len__ c))).
      rewrite <- append_assoc. apply mentions_app.
Qed.

(** C10.  An index [i] with [-len(c) <= i <= -1] passes the range check
    and selects the element at position [len(c) + i]; [c[-1]] is the last
    element. *)
Theorem getitem_negative_index (c : volume.t) (i : Z) :
  - __len__ c <= i <= -1 →
  ∃ vol,
    __getitem__ c i = Ok vol ∧
    _vol_box c !! Z.to_nat (__len__ c + i) = Some vol ∧
    (i = -1 → last (_vol_box c) = Some vol).
Proof.
  unfold __getitem__, __len__, seq_getitem. intros [Hlo Hhi].
  set (n := Z.of_nat (length (_vol_box c))) in *.
  destruct (Z.leb_spec n i) as [?|_]; [lia|].
  destruct (Z.ltb_spec i 0) as [_|?]; [|lia].
  destruct (Z.ltb_spec (i + n) 0) as [?|_]; [lia|].
  destruct (Z.leb_spec n (i + n)) as [?|_]; [lia|]. cbn [orb].
  destruct (_vol_box c !! Z.to_nat (i + n)) as [vol|] eqn:E.
  - exists vol. split; [reflexivity|]. split.
    + now rewrite Z.add_comm.
    + intros ->. rewrite last_lookup. rewrite <- E. f_equal. lia.
  - apply lookup_ge_None in E. lia.
Qed.

End Collection.

(** [collection[99]] on the three slices of [Symbolic.protocol]. *)
Lemma getitem_out_of_range_witness :
  volume.__len__ (H := Symbolic.externals) Symbolic.slices <= 99 ∧
  ∃ msg,
    volume.__getitem__ Symbolic.slices 99 = Raise (IndexError msg) ∧
    msg = "Item out of range. slice volume has only 3 items but 99 is asked." ∧
    mentions "slice" msg = true ∧ mentions "3" msg = true ∧
    mentions "99" msg = true.
Proof.
  assert (volume.__len__ (H := Symbolic.externals) Symbolic.slices <= 99) as Hle
    by (vm_compute; discriminate).
  split; [exact Hle|].
  exact (getitem_out_of_range (H := Symbolic.externals) Symbolic.slices 99 Hle).
Defined.

(** [collection[-1]] on the three slices of [Symbolic.protocol]. *)
Lemma getitem_negative_index_witness :
  - volume.__len__ (H := Symbolic.externals) Symbolic.slices <= -1 <= -1 ∧
  ∃ vol,
    volume.__getitem__ Symbolic.slices (-1) = Ok vol ∧
    volume._vol_box Symbolic.slices
      !! Z.to_nat (volume.__len__ Symbolic.slices + -1) = Some vol ∧
    (-1 = -1 → last (volume._vol_box Symbolic.slices) = Some vol).
Proof.
  assert (- volume.__len__ (H := Symbolic.externals) Symbolic.slices <= -1 <= -1)
    as Hi by (split; vm_compute; discriminate).
  split; [exact Hi|].
  exact (getitem_negative_index (H := Symbolic.externals) Symbolic.slices (-1) Hi).
Defined.

(* ===================================================================== *)
(** ** The volume registry                                                *)
(* ===================================================================== *)

Section Registry.
Context `{Externals}.
Import prot_volumes.

Lemma registry_init_Ok_inv param h reg h' :
  __init__ param h = (Ok reg, h') →
  (param = PNone ∧ reg = class_attributes ∧ h' = h) ∨
  (∃ xp slc ptx adj h1 h2,
     param ≠ PNone ∧ select_xprot param = Ok xp ∧
     volume_slice.__init__ xp h = (Ok slc, h1) ∧
     volume_ptx.__init__ xp h1 = (Ok ptx, h2) ∧
     volume_adjustment.__init__ xp h2 = (Ok adj, h') ∧
     xprot reg = xp ∧
     _all_volumes reg = [("slc", slc); ("ptx", ptx); ("adj", adj)] ∧
     num_volumes reg
       = volume.__len__ slc + volume.__len__ ptx + volume.__len__ adj).
Proof.
  unfold __init__. destruct (is_None param) eqn:Hn.
  - intros [-> ->]%mret_Ok. left. destruct param; try discriminate. done.
  - intros Hi. right.
    apply bind_lift_Ok in Hi as (xp & Hxp & Hi).
    apply Eval_bind_Ok in Hi as (slc & h1 & Hslc & Hi).
    apply Eval_bind_Ok in Hi as (ptx & h2 & Hptx & Hi).
    apply Eval_bind_Ok in Hi as (adj & h3 & Hadj & Hi).
    apply mret_Ok in Hi as [-> ->].
    exists xp, slc, ptx, adj, h1, h2. repeat split; try done.
    now intros ->.
Qed.

Lemma registry_init_step param h xp slc h1 ptx h2 adj h3 :
  param ≠ PNone → select_xprot param = Ok xp →
  volume_slice.__init__ xp h = (Ok slc, h1) →
  volume_ptx.__init__ xp h1 = (Ok ptx, h2) →
  volume_adjustment.__init__ xp h2 = (Ok adj, h3) →
  __init__ param h
  = (Ok (Build xp [("slc", slc); ("ptx", ptx); ("adj", adj)]
           (sum (volume.__len__ <$> [slc; ptx; adj]))), h3).
Proof.
  intros Hn Hxp Hslc Hptx Hadj. unfold __init__.
  destruct (is_None param) eqn:E; [destruct param; done|].
  erewrite bind_lift_step by exact Hxp.
  erewrite Eval_bind_step by exact Hslc.
  erewrite Eval_bind_step by exact Hptx.
  erewrite Eval_bind_step by exact Hadj.
  reflexivity.
Qed.

(** C3, as the code has it.  On every constructed registry, [get] of a
    name other than ['slc'], ['ptx'] and ['adj'] raises [ValueError] with
    the message ['Unknown volume name: '] followed by the name asked
    for. *)
Theorem get_unknown_name param h reg h' (volume_name : string) :
  __init__ param h = (Ok reg, h') →
  volume_name ≠ "slc" → volume_name ≠ "ptx" → volume_name ≠ "adj" →
  get reg volume_name
  = Raise (ValueError ("Unknown volume name: " +:+ volume_name)).
Proof.
  intros Hi Hs Hp Ha. unfold get.
  apply registry_init_Ok_inv in Hi
    as [(_ & -> & _) | (xp & slc & ptx & adj & h1 & h2 & _ & _ & _ & _ & _ & _ & -> & _)].
  - reflexivity.
  - cbn [odict_get].
    rewrite (proj2 (String.eqb_neq "slc" volume_name)) by congruence.
    rewrite (proj2 (String.eqb_neq "ptx" volume_name)) by congruence.
    rewrite (proj2 (String.eqb_neq "adj" volume_name)) by congruence.
    reflexivity.
Qed.


Lemma get_not_held (d : gmap string pyval) (key : string) :
  ¬ holds (PDict d) key → Py.get (PDict d) key PNone = Ok PNone.
Proof.
  intros Hn. unfold Py.get. destruct (d !! key) as [x|] eqn:E; [|done].
  destruct x; try done; exfalso; apply Hn; eexists _, _; eauto.
Qed.

Lemma select_xprot_unrecognised param :
  ¬ selects_header param → ¬ existing_file param →
  ∃ e, select_xprot param = Raise e ∧
       (e = unknown_parameter param ∨
        (∀ d, param ≠ PDict d) ∧ os_path_isfile param = Raise e).
Proof.
  intros Hs Hf. unfold selects_header in Hs.
  assert (∀ d, param = PDict d → select_xprot param = Raise (unknown_parameter param)) as Hd.
  { intros d ->. unfold select_xprot.
    rewrite !get_not_held by tauto. reflexivity. }
  assert (∀ r, (∀ d, param ≠ PDict d) →
            (isfile ← os_path_isfile param;
             if isfile : bool then str ← read_text param; parse_buffer str
             else Raise (unknown_parameter param)) = r →
            ∃ e, r = Raise e ∧
              (e = unknown_parameter param ∨
               (∀ d, param ≠ PDict d) ∧ os_path_isfile param = Raise e)) as Hp.
  { intros r Hnd <-. unfold existing_file in Hf.
    destruct (os_path_isfile param) as [[|]|e] eqn:E; [done| |]; cbn; eauto. }
  destruct param; try (apply Hp; [done | reflexivity]).
  eexists. split; [now eapply Hd | now left].
Qed.

(** C4, as the code has it.  An argument other than [None] that is
    neither a mapping holding one of ['hdr'], ['MeasYaps'], ['ulVersion']
    nor an existing file makes construction raise, the store untouched and
    no registry returned: [ValueError] with the message
    ['Unknown parameter type: <type>'], or what [os.path.isfile] raised on
    an argument that is not a mapping. *)
Theorem init_rejects_unrecognised param h :
  param ≠ PNone → ¬ selects_header param → ¬ existing_file param →
  ∃ e, __init__ param h = (Raise e, h) ∧
       (e = ValueError ("Unknown parameter type: " +:+ type_repr param) ∨
        (∀ d, param ≠ PDict d) ∧ os_path_isfile param = Raise e).
Proof.
  intros Hn Hs Hf.
  destruct (select_xprot_unrecognised param Hs Hf) as (e & He & Hkind).
  exists e. split; [|exact Hkind].
  unfold __init__. destruct (is_None param) eqn:E; [destruct param; done|].
  now apply bind_lift_Raise.
Qed.

Lemma volume_slice_absent xprot h :
  slice_array_absent xprot →
  volume_slice.__init__ xprot h = (Ok (volume.__init__ (Some "slice")), h).
Proof.
  unfold volume_slice.__init__. intros [Ha | (a & Ha & Hb)].
  - erewrite bind_lift_step by exact Ha. reflexivity.
  - assert (Py.get xprot "sSliceArray" PNone = Ok a) as Hg.
    { destruct xprot; try discriminate. unfold getitem in Ha. unfold Py.get.
      destruct (d !! "sSliceArray"); congruence. }
    erewrite bind_lift_step by exact Hg.
    destruct (is_None a); [reflexivity|].
    erewrite bind_lift_step by exact Ha.
    erewrite bind_lift_step by exact Hb. reflexivity.
Qed.

Lemma names_of_three xp slc ptx adj n :
  get_volume_names (Build xp [("slc", slc); ("ptx", ptx); ("adj", adj)] n)
  = (if 0 <? volume.__len__ slc then ["slc"] else []) ++
    (if 0 <? volume.__len__ ptx then ["ptx"] else []) ++
    (if 0 <? volume.__len__ adj then ["adj"] else []).
Proof.
  unfold get_volume_names, odict_keys.
  cbn [_all_volumes fmap list_fmap fst List.filter odict_get].
  change (String.eqb "slc" "slc") with true.
  change (String.eqb "slc" "ptx") with false.
  change (String.eqb "ptx" "ptx") with true.
  change (String.eqb "slc" "adj") with false.
  change (String.eqb "ptx" "adj") with false.
  change (String.eqb "adj" "adj") with true.
  cbv beta iota.
  destruct (0 <? volume.__len__ slc), (0 <? volume.__len__ ptx),
    (0 <? volume.__len__ adj); reflexivity.
Qed.

Lemma get_of_three xp slc ptx adj n :
  get (Build xp [("slc", slc); ("ptx", ptx); ("adj", adj)] n) "slc" = Ok slc ∧
  get (Build xp [("slc", slc); ("ptx", ptx); ("adj", adj)] n) "ptx" = Ok ptx ∧
  get (Build xp [("slc", slc); ("ptx", ptx); ("adj", adj)] n) "adj" = Ok adj.
Proof. repeat split. Qed.

(** C5, as the code has it.  When the slice array is missing from the
    protocol, the slice collection is built without error and is empty;
    and whenever the parallel-transmit and adjustment collections are
    built, the registry is, its ['slc'] collection has length 0, its
    volume names leave out ['slc'] and name non-empty collections only. *)
Theorem missing_slice_array xprot :
  slice_array_absent xprot →
  (∀ h, ∃ slc, volume_slice.__init__ xprot h = (Ok slc, h) ∧
               volume.__len__ slc = 0) ∧
  (∀ param h ptx h1 adj h2,
     param ≠ PNone → select_xprot param = Ok xprot →
     volume_ptx.__init__ xprot h = (Ok ptx, h1) →
     volume_adjustment.__init__ xprot h1 = (Ok adj, h2) →
     ∃ reg slc,
       __init__ param h = (Ok reg, h2) ∧
       get reg "slc" = Ok slc ∧ volume.__len__ slc = 0 ∧
       ¬ In "slc" (get_volume_names reg) ∧
       ∀ name, In name (get_volume_names reg) →
               ∃ c, get reg name = Ok c ∧ 0 < volume.__len__ c).
Proof.
  intros Habs. split.
  - intros h. eexists. split; [now apply volume_slice_absent | reflexivity].
  - intros param h ptx h1 adj h2 Hn Hxp Hptx Hadj.
    eexists _, _. split.
    { eapply registry_init_step; eauto. now apply volume_slice_absent. }
    destruct (get_of_three xprot (volume.__init__ (Some "slice")) ptx adj
                (sum (volume.__len__ <$> [volume.__init__ (Some "slice"); ptx; adj])))
      as (Gs & Gp & Ga).
    split; [exact Gs|]. split; [reflexivity|].
    rewrite names_of_three.
    change (0 <? volume.__len__ (volume.__init__ (Some "slice"))) with false.
    cbv iota. cbn [app].
    split.
    + intros [E|E]%in_app_or.
      * destruct (0 <? volume.__len__ ptx); [destruct E as [E|[]]|destruct E]; discriminate.
      * destruct (0 <? volume.__len__ adj); [destruct E as [E|[]]|destruct E]; discriminate.
    + intros name [E|E]%in_app_or.
      * revert E. destruct (Z.ltb_spec 0 (volume.__len__ ptx)); intros E; [|destruct E].
        destruct E as [<-|[]]. eauto.
      * revert E. destruct (Z.ltb_spec 0 (volume.__len__ adj)); intros E; [|destruct E].
        destruct E as [<-|[]]. eauto.
Qed.

End Registry.


(** The registry of [Symbolic.protocol], asked for an unknown name. *)
Lemma get_unknown_name_witness :
  prot_volumes.__init__ (H := Symbolic.externals) Symbolic.protocol []
    = (Ok Symbolic.registry, Symbolic.registry_store) ∧
  "unknown" ≠ "slc" ∧ "unknown" ≠ "ptx" ∧ "unknown" ≠ "adj" ∧
  prot_volumes.get Symbolic.registry "unknown"
    = Raise (ValueError "Unknown volume name: unknown").
Proof.
  assert (prot_volumes.__init__ (H := Symbolic.externals) Symbolic.protocol []
          = (Ok Symbolic.registry, Symbolic.registry_store)) as Hi
    by (vm_compute; reflexivity).
  assert ("unknown" ≠ "slc") as Hs by discriminate.
  assert ("unknown" ≠ "ptx") as Hp by discriminate.
  assert ("unknown" ≠ "adj") as Ha by discriminate.
  do 4 (split; [assumption|]).
  exact (get_unknown_name (H := Symbolic.externals) Symbolic.protocol []
           Symbolic.registry Symbolic.registry_store "unknown" Hi Hs Hp Ha).
Defined.


(** The message of that error does not list the collection names. *)
Lemma get_unknown_name_counterexample :
  prot_volumes.get (H := Symbolic.externals) Symbolic.registry "unknown"
    = Raise (ValueError "Unknown volume name: unknown") ∧
  names_valid_set "Unknown volume name: unknown" = false.
Proof. split; vm_compute; reflexivity. Qed.


(** [None] is neither a mapping nor a path, and construction returns. *)
Lemma init_none_counterexample :
  ¬ recognised_shape (H := Symbolic.externals) PNone ∧
  prot_volumes.__init__ (H := Symbolic.externals) PNone []
    = (Ok prot_volumes.class_attributes, []).
Proof.
  split; [|reflexivity].
  intros [(d & key & ? & _) | ?]; discriminate.
Qed.

(** A path that is not a file. *)
Lemma init_rejects_unrecognised_witness :
  PStr "meas.dat" ≠ PNone ∧
  ¬ selects_header (PStr "meas.dat") ∧
  ¬ existing_file (H := Symbolic.externals) (PStr "meas.dat") ∧
  ∃ e, prot_volumes.__init__ (H := Symbolic.externals) (PStr "meas.dat") []
       = (Raise e, []) ∧
       (e = ValueError "Unknown parameter type: <class 'str'>" ∨
        (∀ d, PStr "meas.dat" ≠ PDict d) ∧
        os_path_isfile (Externals := Symbolic.externals) (PStr "meas.dat") = Raise e).
Proof.
  assert (PStr "meas.dat" ≠ PNone) as Hn by discriminate.
  assert (¬ selects_header (PStr "meas.dat")) as Hs
    by (intros [(d & x & ? & _) | [(d & x & ? & _) | (d & x & ? & _)]]; discriminate).
  assert (¬ existing_file (H := Symbolic.externals) (PStr "meas.dat")) as Hf
    by discriminate.
  do 3 (split; [assumption|]).
  exact (init_rejects_unrecognised (H := Symbolic.externals) _ [] Hn Hs Hf).
Defined.

(** A protocol with an adjustment volume and no slice array. *)
Lemma missing_slice_array_witness :
  slice_array_absent Symbolic.adjustment_only ∧
  (∀ h, ∃ slc,
     volume_slice.__init__ (H := Symbolic.externals) Symbolic.adjustment_only h
       = (Ok slc, h) ∧
     volume.__len__ (H := Symbolic.externals) slc = 0) ∧
  (∀ param h ptx h1 adj h2,
     param ≠ PNone →
     prot_volumes.select_xprot (H := Symbolic.externals) param
       = Ok Symbolic.adjustment_only →
     volume_ptx.__init__ (H := Symbolic.externals) Symbolic.adjustment_only h
       = (Ok ptx, h1) →
     volume_adjustment.__init__ (H := Symbolic.externals)
       Symbolic.adjustment_only h1 = (Ok adj, h2) →
     ∃ reg slc,
       prot_volumes.__init__ (H := Symbolic.externals) param h
         = (Ok reg, h2) ∧
       prot_volumes.get reg "slc" = Ok slc ∧ volume.__len__ slc = 0 ∧
       ¬ In "slc" (prot_volumes.get_volume_names reg) ∧
       ∀ name, In name (prot_volumes.get_volume_names reg) →
               ∃ c, prot_volumes.get reg name = Ok c ∧ 0 < volume.__len__ c).
Proof.
  assert (slice_array_absent Symbolic.adjustment_only) as Ha
    by (left; vm_compute; reflexivity).
  split; [exact Ha|].
  exact (missing_slice_array (H := Symbolic.externals)
           Symbolic.adjustment_only Ha).
Defined.

(** Its registry is built and names the adjustment collection only. *)
Example adjustment_only_names :
  prot_volumes.get_volume_names
    (Symbolic.returned prot_volumes.class_attributes
       (prot_volumes.__init__ (H := Symbolic.externals)
          Symbolic.adjustment_only []))
  = ["adj"].
Proof. vm_compute. reflexivity. Qed.

(** No slice array, an adjustment volume 0.5 mm thick: the registry is
    not built. *)
Lemma missing_slice_array_counterexample :
  slice_array_absent Symbolic.thin_adjustment ∧
  prot_volumes.__init__ (H := Symbolic.externals) Symbolic.thin_adjustment []
    = (Raise (ZeroDivisionError "float division by zero"),
       [XYZ (PInt 200) (PInt 200) (PInt 0)]).
Proof.
  split; [left|]; vm_compute; reflexivity.
Qed.

(* ===================================================================== *)
(** ** The protocol summary                                               *)
(* ===================================================================== *)

Section ProtocolSummary.
Context `{Externals}.
Import protocol_parse.

Lemma gpa_offset_absent hdr g key :
  getpath hdr [Key "Phoenix"; Key "sGRADSPEC"] = Ok (PDict g) →
  g !! "asGPAData" = None →
  gpa_offset hdr key = Raise (TypeError "'float' object is not subscriptable").
Proof.
  intros Hg Ha. unfold gpa_offset. rewrite Hg. cbn [mbind result_bind].
  unfold Py.get. now rewrite Ha.
Qed.

Lemma shim_current_of_default i :
  shim_current (PFloat (S754_zero false)) i
  = Raise (TypeError "object of type 'float' has no len()").
Proof. reflexivity. Qed.

(** C2, as the code behaves.  When the gradient section of the header
    lacks ['alShimCurrent'] or ['asGPAData'], constructing the summary
    raises: the default [0.0] that [get] supplies has no [len()] and
    cannot be subscripted. *)
Theorem missing_shim_entries_raise twix_obj hdr g :
  getitem twix_obj "hdr" = Ok hdr →
  getpath hdr [Key "Phoenix"; Key "sGRADSPEC"] = Ok (PDict g) →
  g !! "alShimCurrent" = None ∨ g !! "asGPAData" = None →
  ∃ e, __init__ twix_obj = Raise e.
Proof.
  intros Hh Hg Habs.
  destruct (__init__ twix_obj) as [p|e] eqn:E; [exfalso | eauto].
  unfold __init__ in E. rewrite Hh in E. cbn [mbind result_bind] in E.
  repeat match type of E with
         | (_ ≫= _) = Ok _ =>
             let a := fresh "a" in let Ea := fresh "Ea" in
             apply result_bind_Ok in E as (a & Ea & E)
         end.
  assert (a23 = PDict g) as -> by congruence.
  destruct Habs as [Hal | Hgpa].
  - unfold Py.get in Ea24. rewrite Hal in Ea24. injection Ea24 as <-.
    rewrite shim_current_of_default in Ea29. discriminate.
  - rewrite (gpa_offset_absent hdr g "lOffsetX" Hg Hgpa) in Ea26. discriminate.
Qed.

End ProtocolSummary.

(** A complete header without ['alShimCurrent']. *)
Lemma missing_shim_entries_raise_witness :
  getitem (Symbolic.twix Symbolic.gradspec_without_shim_current) "hdr"
    = Ok (Symbolic.header Symbolic.gradspec_without_shim_current) ∧
  getpath (Symbolic.header Symbolic.gradspec_without_shim_current)
      [Key "Phoenix"; Key "sGRADSPEC"]
    = Ok Symbolic.gradspec_without_shim_current ∧
  getitem Symbolic.gradspec_without_shim_current "alShimCurrent"
    = Raise (KeyError "alShimCurrent") ∧
  protocol_parse.__init__ (H := Symbolic.externals)
      (Symbolic.twix Symbolic.gradspec_without_shim_current)
    = Raise (TypeError "object of type 'float' has no len()") ∧
  ∃ e, protocol_parse.__init__ (H := Symbolic.externals)
         (Symbolic.twix Symbolic.gradspec_without_shim_current) = Raise e.
Proof.
  assert (getitem (Symbolic.twix Symbolic.gradspec_without_shim_current) "hdr"
          = Ok (Symbolic.header Symbolic.gradspec_without_shim_current)) as Hh
    by (vm_compute; reflexivity).
  assert (getpath (Symbolic.header Symbolic.gradspec_without_shim_current)
            [Key "Phoenix"; Key "sGRADSPEC"]
          = Ok Symbolic.gradspec_without_shim_current) as Hg
    by (vm_compute; reflexivity).
  split; [exact Hh|]. split; [exact Hg|].
  split; [vm_compute; reflexivity|]. split; [vm_compute; reflexivity|].
  refine (missing_shim_entries_raise (H := Symbolic.externals) _ _ _ Hh Hg _).
  left. vm_compute. reflexivity.
Defined.

(** C8, as the code behaves.  Base resolution 64 and 64 samples along
    ['Col']: the counts agree, yet [isPartialFourierRO] is set, because
    the extent is read at position [dims.index('Col') // 2] (the ['Rep']
    dimension, of extent 1) and not along ['Col']. *)
Theorem partial_fourier_readout_reads_another_axis :
  ∃ p,
    protocol_parse.__init__ (H := Symbolic.externals)
      (Symbolic.twix Symbolic.gradspec) = Ok p ∧
    key_x (protocol_parse.res p) = PInt 64 ∧
    (shape ← attr_shape Symbolic.image_64; dims ← attr_dims Symbolic.image_64;
     col ← index dims "Col"; seq_getitem "tuple" shape col) = Ok 64 ∧
    protocol_parse.isPartialFourierRO p = true ∧
    readout_samples_differ (protocol_parse.res p) Symbolic.image_64 = Ok false.
Proof.
  destruct (protocol_parse.__init__ (H := Symbolic.externals)
              (Symbolic.twix Symbolic.gradspec)) as [p|e] eqn:E;
    [|vm_compute in E; discriminate E].
  exists p. split; [reflexivity|].
  assert (protocol_parse.res p = XYZ (PInt 64) (PInt 64) (PInt 3) ∧
          protocol_parse.isPartialFourierRO p = true) as [Hr Hf].
  { vm_compute in E. injection E as <-. split; reflexivity. }
  rewrite Hr, Hf. repeat split; vm_compute; reflexivity.
Qed.

(* ===================================================================== *)
(** ** Further properties of the two modules                              *)
(* ===================================================================== *)

Section DescriptorMore.
Context `{Externals}.
Import volume_orientation.

Lemma get_dict_inv v k default x :
  Py.get v k default = Ok x → ∃ d, v = PDict d ∧ x = lookup_default d k default.
Proof.
  destruct v; try discriminate. unfold Py.get, lookup_default.
  intros [= <-]. eauto.
Qed.

Lemma getitem_dict_inv v k x :
  getitem v k = Ok x → ∃ d, v = PDict d ∧ d !! k = Some x.
Proof.
  destruct v; try discriminate. unfold getitem.
  destruct (d !! k) eqn:E; [|discriminate]. intros [= <-]. eauto.
Qed.

Lemma insert_last (h : heap) (a b : xyz) :
  <[length h := b]> (h ++ [a]) = h ++ [b].
Proof.
  induction h as [|x h IH]; [reflexivity|].
  change (x :: <[length h := b]> (h ++ [a]) = x :: (h ++ [b])).
  now rewrite IH.
Qed.

(** X1.  A constructed descriptor keeps the geometry of its volume structure:
    the normal is read from ['sNormal'] and the position from
    ['sPosition'], each component defaulting to 0 (the whole position
    when ['sPosition'] is missing), the in-plane rotation from
    ['dInPlaneRot'] with default 0, and the name is the one passed. *)
Theorem init_geometry v res thickness name h d h' :
  __init__ v res thickness name h = (Ok d, h') →
  ∃ dv n p,
    v = PDict dv ∧ dv !! "sNormal" = Some (PDict n) ∧
    lookup_default dv "sPosition" (PDict ∅) = PDict p ∧
    _norm d = [lookup_default n "dSag" (PInt 0);
               lookup_default n "dCor" (PInt 0);
               lookup_default n "dTra" (PInt 0)] ∧
    _rot d = lookup_default dv "dInPlaneRot" (PInt 0) ∧
    _pos d = [lookup_default p "dSag" (PInt 0);
              lookup_default p "dCor" (PInt 0);
              lookup_default p "dTra" (PInt 0)] ∧
    _name d = name.
Proof.
  unfold __init__. intros Hi.
  do 13 eval_inv Hi.
  apply bind_lift_Ok in Hi as (fx & Hfx & Hi).
  apply bind_lift_Ok in Hi as (fy & Hfy & Hi).
  apply bind_lift_Ok in Hi as (fz & Hfz & Hi).
  apply Eval_bind_Ok in Hi as (l & h1 & Hres & Hi).
  apply Eval_bind_Ok in Hi as (t1 & h2 & Hth & Hi).
  apply Eval_bind_Ok in Hi as (r1 & h3 & [Hr1 ->]%load_Ok & Hi).
  apply Eval_bind_Ok in Hi as (t2 & h4 & Hfix & Hi).
  apply bind_lift_Ok in Hi as (dcm & Hdcm & Hi).
  apply bind_lift_Ok in Hi as (tr & Htr & Hi).
  apply Eval_bind_Ok in Hi as (r2 & h5 & [Hr2 ->]%load_Ok & Hi).
  apply bind_lift_Ok in Hi as (aff & Haff & Hi).
  apply mret_Ok in Hi as [-> ->]. cbn [_norm _rot _pos _name].
  apply getitem_dict_inv in E as (dv & -> & Hn).
  apply getitem_dict_inv in E1 as (dv1 & [= <-] & Hn1).
  apply getitem_dict_inv in E3 as (dv3 & [= <-] & Hn3).
  assert (a1 = a) as -> by congruence. assert (a3 = a) as -> by congruence.
  apply get_dict_inv in E0 as (n & -> & ->).
  apply get_dict_inv in E2 as (n2 & [= <-] & ->).
  apply get_dict_inv in E4 as (n4 & [= <-] & ->).
  apply get_dict_inv in E5 as (dv5 & [= <-] & ->).
  apply get_dict_inv in E6 as (dv6 & [= <-] & ->).
  apply get_dict_inv in E8 as (dv8 & [= <-] & ->).
  apply get_dict_inv in E10 as (dv10 & [= <-] & ->).
  apply get_dict_inv in E7 as (p & Hp & ->).
  apply get_dict_inv in E9 as (p9 & Hp9 & ->).
  apply get_dict_inv in E11 as (p11 & Hp11 & ->).
  assert (p9 = p) as -> by congruence. assert (p11 = p) as -> by congruence.
  exists dv, n, p. repeat split; done.
Qed.


(** X2.  A constructed descriptor's [transformation] is what
    [calc_tranformation_matrix] gave for the direction cosines of its
    normal and rotation and for its position, and its [affine] is what
    [calc_nifti_affine] gave for that transformation, the field of view,
    the resolution as finally stored and the final thickness. *)
Theorem init_engine_calls v res thickness name h d h' :
  __init__ v res thickness name h = (Ok d, h') →
  ∃ sag cor tra dcm r,
    _norm d = [sag; cor; tra] ∧
    calc_norm2dcm sag cor tra (_rot d) = Ok dcm ∧
    calc_tranformation_matrix dcm (_pos d) = Ok (_transformation d) ∧
    h' !! _res d = Some r ∧
    calc_nifti_affine (_transformation d) (_fov d) r (_thickness d)
      = Ok (_affine d) ∧
    affine d = _affine d ∧ transformation d = _transformation d.
Proof.
  unfold __init__. intros Hi.
  do 13 eval_inv Hi.
  apply bind_lift_Ok in Hi as (fx & Hfx & Hi).
  apply bind_lift_Ok in Hi as (fy & Hfy & Hi).
  apply bind_lift_Ok in Hi as (fz & Hfz & Hi).
  apply Eval_bind_Ok in Hi as (l & h1 & Hres & Hi).
  apply Eval_bind_Ok in Hi as (t1 & h2 & Hth & Hi).
  apply Eval_bind_Ok in Hi as (r1 & h3 & [Hr1 ->]%load_Ok & Hi).
  apply Eval_bind_Ok in Hi as (t2 & h4 & Hfix & Hi).
  apply bind_lift_Ok in Hi as (dcm & Hdcm & Hi).
  apply bind_lift_Ok in Hi as (tr & Htr & Hi).
  apply Eval_bind_Ok in Hi as (r2 & h5 & [Hr2 ->]%load_Ok & Hi).
  apply bind_lift_Ok in Hi as (aff & Haff & Hi).
  apply mret_Ok in Hi as [-> ->].
  cbn [_norm _rot _pos _fov _res _thickness _affine _transformation
       affine transformation].
  eexists _, _, _, dcm, r2. repeat split; done.
Qed.

(** X3.  A resolution dictionary passed as [res] is not copied: the
    descriptor refers to that very object, no dictionary is created,
    every other dictionary is untouched, and the caller's dictionary
    has afterwards its ['z'] entry set to 3 when it was 1 and is
    otherwise unchanged. *)
Theorem init_supplied_res_in_place v l thickness name h d h' :
  __init__ v (Some l) thickness name h = (Ok d, h') →
  _res d = l ∧ length h' = length h ∧
  (∀ l', l' ≠ l → h' !! l' = h !! l') ∧
  ∃ r, h !! l = Some r ∧
       h' !! l = Some (XYZ (key_x r) (key_y r)
                         (if eq_int (key_z r) 1 then PInt 3 else key_z r)).
Proof.
  intros (fx & fy & fz & h1 & r & t1 & _ & _ & _ & _ & _ & [Hl ->] & Hr & _ & _ & Hfix)
    %init_Ok_inv.
  subst l. split; [done|].
  destruct (eq_int (key_z r) 1) eqn:Ez.
  - destruct Hfix as [-> _]. split; [apply length_insert|]. split.
    + intros l' Hne. now apply list_lookup_insert_ne.
    + exists r. split; [done|]. rewrite Ez. apply list_lookup_insert_eq.
      now apply lookup_lt_Some in Hr.
  - destruct Hfix as [-> _]. repeat split; try done.
    exists r. split; [done|]. rewrite Ez, Hr. now destruct r.
Qed.

Lemma init_fresh_res v thickness name h d h' :
  __init__ v None thickness name h = (Ok d, h') →
  ∃ fx fy fz rx ry rz,
    getitem v "dReadoutFOV" = Ok fx ∧ py_int fx = Ok rx ∧
    getitem v "dPhaseFOV" = Ok fy ∧ py_int fy = Ok ry ∧
    getitem v "dThickness" = Ok fz ∧ py_int fz = Ok rz ∧
    _res d = length h ∧
    h' = h ++ [XYZ (PInt rx) (PInt ry) (PInt (if rz =? 1 then 3 else rz))].
Proof.
  intros (fx & fy & fz & h1 & r & t1 & Hfx & Hfy & Hfz & _ & _
          & (rx & ry & rz & Hrx & Hry & Hrz & Hl & ->) & Hr & _ & _ & Hfix)
    %init_Ok_inv.
  exists fx, fy, fz, rx, ry, rz. repeat split; try done.
  rewrite Hl, alloc_lookup in Hr. injection Hr as <-.
  cbn [key_x key_y key_z] in Hfix. change (eq_int (PInt rz) 1) with (rz =? 1) in Hfix.
  destruct (rz =? 1).
  - destruct Hfix as [-> _]. rewrite Hl. apply insert_last.
  - now destruct Hfix as [-> _].
Qed.

(** X4.  Without [res], the constructor creates one new dictionary holding
    the field of view truncated by [int], with 3 in place of a ['z']
    of 1; the descriptor refers to it, and every dictionary that
    existed before is left as it was. *)
Theorem init_derived_res_is_fresh v thickness name h d h' :
  __init__ v None thickness name h = (Ok d, h') →
  ∃ fx fy fz rx ry rz,
    getitem v "dReadoutFOV" = Ok fx ∧ py_int fx = Ok rx ∧
    getitem v "dPhaseFOV" = Ok fy ∧ py_int fy = Ok ry ∧
    getitem v "dThickness" = Ok fz ∧ py_int fz = Ok rz ∧
    _res d = length h ∧
    h' = h ++ [XYZ (PInt rx) (PInt ry) (PInt (if rz =? 1 then 3 else rz))] ∧
    ∀ l, (l < length h)%nat → h' !! l = h !! l.
Proof.
  intros (fx & fy & fz & rx & ry & rz & Hfx & Hrx & Hfy & Hry & Hfz & Hrz
          & Hl & ->)%init_fresh_res.
  exists fx, fy, fz, rx, ry, rz. repeat split; try done.
  intros l Hlt. now apply lookup_app_l.
Qed.

(** X5.  When the ['z'] resolution a descriptor starts from is not 1, the
    correction does not apply: the resolution is stored as it is and
    the thickness is the one supplied or, failing that,
    [dThickness / res['z']]. *)
Theorem init_other_resolutions_kept v res thickness name h r0 d h' :
  effective_resolution v res h = Ok r0 →
  eq_int (key_z r0) 1 = false →
  __init__ v res thickness name h = (Ok d, h') →
  h' !! _res d = Some r0 ∧
  nominal_thickness v r0 thickness = Ok (_thickness d).
Proof.
  intros Hr0 Hz
    (fx & fy & fz & h1 & r1 & t1 & _ & _ & Hfz & _ & _ & _ & Hr1 & Hr0' & Ht1 & Hfix)
    %init_Ok_inv.
  assert (r1 = r0) as -> by congruence. rewrite Hz in Hfix.
  destruct Hfix as [-> ->]. split; [done|].
  unfold nominal_thickness. destruct (is_None thickness); [|congruence].
  now rewrite Hfz.
Qed.


(** X6.  For every volume structure with float extents whose slice extent
    truncates to 0 (so also 0.0 and negative fractions), constructing
    without [res] and [thickness] raises [ZeroDivisionError] with the
    message ['float division by zero'], whatever the transformation
    engine does; the derived dictionary has been created by then. *)
Theorem init_zero_resolution_divides_by_zero v name h r0 :
  float_geometry v →
  effective_resolution v None h = Ok r0 →
  key_z r0 = PInt 0 →
  __init__ v None PNone name h
  = (Raise (ZeroDivisionError "float division by zero"), h ++ [r0]).
Proof.
  intros (dv & n & fx & fy & fz & -> & Hn & Hp & Hfx & Hfy & Hfz) Hr0 Hz.
  unfold __init__.
  assert (getitem (PDict dv) "sNormal" = Ok (PDict n)) as En
    by (unfold getitem; now rewrite Hn).
  assert (∃ p, Py.get (PDict dv) "sPosition" (PDict ∅) = Ok (PDict p)) as [p Ep].
  { unfold Py.get. destruct Hp as [-> | [p ->]]; eauto. }
  assert (getitem (PDict dv) "dReadoutFOV" = Ok (PFloat fx)) as Ex
    by (unfold getitem; now rewrite Hfx).
  assert (getitem (PDict dv) "dPhaseFOV" = Ok (PFloat fy)) as Ey
    by (unfold getitem; now rewrite Hfy).
  assert (getitem (PDict dv) "dThickness" = Ok (PFloat fz)) as Ez
    by (unfold getitem; now rewrite Hfz).
  repeat (erewrite bind_lift_step; [| first [eassumption | reflexivity]]).
  cbn [key_x key_y key_z].
  unfold effective_resolution in Hr0. rewrite Ex, Ey, Ez in Hr0.
  cbn [mbind result_bind] in Hr0.
  apply result_bind_Ok in Hr0 as (rx & Hrx & Hr0).
  apply result_bind_Ok in Hr0 as (ry & Hry & Hr0).
  apply result_bind_Ok in Hr0 as (rz & Hrz & [= <-]).
  cbn [key_z] in Hz. injection Hz as ->.
  rewrite (Eval_bind_step _ _ h (length h)
             (h ++ [XYZ (PInt rx) (PInt ry) (PInt 0)])); cycle 1.
  { repeat (erewrite bind_lift_step; [| eassumption]). reflexivity. }
  cbn [is_None].
  erewrite Eval_bind_Raise; [reflexivity|].
  erewrite Eval_bind_step by (apply load_step, alloc_lookup).
  cbn [key_z]. reflexivity.
Qed.

(** X7.  A volume structure lacking ['sNormal'], ['dReadoutFOV'],
    ['dPhaseFOV'] or ['dThickness'] cannot be constructed: the
    constructor raises before it creates or changes any resolution
    dictionary, and a missing ['sNormal'] gives [KeyError('sNormal')]. *)
Theorem init_requires_keys dv res thickness name h key :
  In key ["sNormal"; "dReadoutFOV"; "dPhaseFOV"; "dThickness"] →
  dv !! key = None →
  ∃ e, __init__ (PDict dv) res thickness name h = (Raise e, h) ∧
       (key = "sNormal" → e = KeyError "sNormal").
Proof.
  intros Hin Hk. unfold __init__.
  destruct (dv !! "sNormal") as [n|] eqn:Hn.
  2:{ eexists. split; [|reflexivity].
      apply bind_lift_Raise. unfold getitem. now rewrite Hn. }
  assert (key ≠ "sNormal") as Hne by congruence.
  assert (∀ A (r : result pyval) (k : pyval → Eval A) (P : exn → Prop),
            (∀ a, r = Ok a → ∃ e, k a h = (Raise e, h) ∧ P e) →
            (∀ e, r = Raise e → P e) →
            ∃ e, (lift r ≫= k) h = (Raise e, h) ∧ P e) as Hstep.
  { intros A [a|e] k P Hok Hraise; [now apply Hok | eauto]. }
  do 13 (apply Hstep; [intros ? _ | done]).
  destruct Hin as [<-|[<-|[<-|[<-|[]]]]]; [done| | |].
  - eexists. split; [apply bind_lift_Raise; unfold getitem; now rewrite Hk | done].
  - apply Hstep; [intros ? _ | done].
    eexists. split; [apply bind_lift_Raise; unfold getitem; now rewrite Hk | done].
  - do 2 (apply Hstep; [intros ? _ | done]).
    eexists. split; [apply bind_lift_Raise; unfold getitem; now rewrite Hk | done].
Qed.

End DescriptorMore.

Section DescriptorExamples.
Import Symbolic Examples.
#[local] Existing Instance externals.

Lemma init_geometry_witness :
  volume_orientation.__init__ five_mm None PNone None []
    = (Ok five_mm_descriptor, [XYZ (PInt 200) (PInt 200) (PInt 5)]) ∧
  ∃ dv n p,
    five_mm = PDict dv ∧ dv !! "sNormal" = Some (PDict n) ∧
    lookup_default dv "sPosition" (PDict ∅) = PDict p ∧
    volume_orientation._norm five_mm_descriptor
      = [lookup_default n "dSag" (PInt 0); lookup_default n "dCor" (PInt 0);
         lookup_default n "dTra" (PInt 0)] ∧
    volume_orientation._rot five_mm_descriptor
      = lookup_default dv "dInPlaneRot" (PInt 0) ∧
    volume_orientation._pos five_mm_descriptor
      = [lookup_default p "dSag" (PInt 0); lookup_default p "dCor" (PInt 0);
         lookup_default p "dTra" (PInt 0)] ∧
    volume_orientation._name five_mm_descriptor = None.
Proof.
  assert (volume_orientation.__init__ five_mm None PNone None []
          = (Ok five_mm_descriptor, [XYZ (PInt 200) (PInt 200) (PInt 5)])) as Hi
    by (vm_compute; reflexivity).
  split; [exact Hi|].
  exact (init_geometry five_mm None PNone None [] _ _ Hi).
Defined.

Lemma init_engine_calls_witness :
  volume_orientation.__init__ five_mm None PNone None []
    = (Ok five_mm_descriptor, [XYZ (PInt 200) (PInt 200) (PInt 5)]) ∧
  ∃ sag cor tra dcm r,
    volume_orientation._norm five_mm_descriptor = [sag; cor; tra] ∧
    calc_norm2dcm sag cor tra (volume_orientation._rot five_mm_descriptor)
      = Ok dcm ∧
    calc_tranformation_matrix dcm (volume_orientation._pos five_mm_descriptor)
      = Ok (volume_orientation._transformation five_mm_descriptor) ∧
    [XYZ (PInt 200) (PInt 200) (PInt 5)]
      !! volume_orientation._res five_mm_descriptor = Some r ∧
    calc_nifti_affine (volume_orientation._transformation five_mm_descriptor)
        (volume_orientation._fov five_mm_descriptor) r
        (volume_orientation._thickness five_mm_descriptor)
      = Ok (volume_orientation._affine five_mm_descriptor) ∧
    volume_orientation.affine five_mm_descriptor
      = volume_orientation._affine five_mm_descriptor ∧
    volume_orientation.transformation five_mm_descriptor
      = volume_orientation._transformation five_mm_descriptor.
Proof.
  assert (volume_orientation.__init__ five_mm None PNone None []
          = (Ok five_mm_descriptor, [XYZ (PInt 200) (PInt 200) (PInt 5)])) as Hi
    by (vm_compute; reflexivity).
  split; [exact Hi|].
  exact (init_engine_calls five_mm None PNone None [] _ _ Hi).
Defined.

Lemma init_supplied_res_in_place_witness :
  volume_orientation.__init__ (slice_at 0) (Some 0%nat) PNone None
      [XYZ (PInt 64) (PInt 64) (PInt 1)]
    = (Ok (slice_descriptor 0 five_thirds), [XYZ (PInt 64) (PInt 64) (PInt 3)]) ∧
  volume_orientation._res (slice_descriptor 0 five_thirds) = 0%nat ∧
  length [XYZ (PInt 64) (PInt 64) (PInt 3)]
    = length [XYZ (PInt 64) (PInt 64) (PInt 1)] ∧
  (∀ l', l' ≠ 0%nat →
     [XYZ (PInt 64) (PInt 64) (PInt 3)] !! l'
     = [XYZ (PInt 64) (PInt 64) (PInt 1)] !! l') ∧
  ∃ r, [XYZ (PInt 64) (PInt 64) (PInt 1)] !! 0%nat = Some r ∧
       [XYZ (PInt 64) (PInt 64) (PInt 3)] !! 0%nat
       = Some (XYZ (key_x r) (key_y r)
                 (if eq_int (key_z r) 1 then PInt 3 else key_z r)).
Proof.
  assert (volume_orientation.__init__ (slice_at 0) (Some 0%nat) PNone None
            [XYZ (PInt 64) (PInt 64) (PInt 1)]
          = (Ok (slice_descriptor 0 five_thirds),
             [XYZ (PInt 64) (PInt 64) (PInt 3)])) as Hi
    by (vm_compute; reflexivity).
  split; [exact Hi|].
  exact (init_supplied_res_in_place (slice_at 0) 0%nat PNone None _ _ _ Hi).
Defined.

Lemma init_derived_res_is_fresh_witness :
  volume_orientation.__init__ five_mm None PNone None []
    = (Ok five_mm_descriptor, [XYZ (PInt 200) (PInt 200) (PInt 5)]) ∧
  ∃ fx fy fz rx ry rz,
    getitem five_mm "dReadoutFOV" = Ok fx ∧ py_int fx = Ok rx ∧
    getitem five_mm "dPhaseFOV" = Ok fy ∧ py_int fy = Ok ry ∧
    getitem five_mm "dThickness" = Ok fz ∧ py_int fz = Ok rz ∧
    volume_orientation._res five_mm_descriptor = length ([] : heap) ∧
    [XYZ (PInt 200) (PInt 200) (PInt 5)]
    = [] ++ [XYZ (PInt rx) (PInt ry) (PInt (if rz =? 1 then 3 else rz))] ∧
    ∀ l, (l < length ([] : heap))%nat →
         [XYZ (PInt 200) (PInt 200) (PInt 5)] !! l = ([] : heap) !! l.
Proof.
  assert (volume_orientation.__init__ five_mm None PNone None []
          = (Ok five_mm_descriptor, [XYZ (PInt 200) (PInt 200) (PInt 5)])) as Hi
    by (vm_compute; reflexivity).
  split; [exact Hi|].
  exact (init_derived_res_is_fresh five_mm PNone None [] _ _ Hi).
Defined.

Lemma init_other_resolutions_kept_witness :
  effective_resolution five_mm None []
    = Ok (XYZ (PInt 200) (PInt 200) (PInt 5)) ∧
  eq_int (PInt 5) 1 = false ∧
  volume_orientation.__init__ five_mm None PNone None []
    = (Ok five_mm_descriptor, [XYZ (PInt 200) (PInt 200) (PInt 5)]) ∧
  [XYZ (PInt 200) (PInt 200) (PInt 5)]
    !! volume_orientation._res five_mm_descriptor
    = Some (XYZ (PInt 200) (PInt 200) (PInt 5)) ∧
  nominal_thickness five_mm (XYZ (PInt 200) (PInt 200) (PInt 5)) PNone
    = Ok (volume_orientation._thickness five_mm_descriptor).
Proof.
  assert (effective_resolution five_mm None []
          = Ok (XYZ (PInt 200) (PInt 200) (PInt 5))) as Hr
    by (vm_compute; reflexivity).
  assert (eq_int (PInt 5) 1 = false) as Hz by reflexivity.
  assert (volume_orientation.__init__ five_mm None PNone None []
          = (Ok five_mm_descriptor, [XYZ (PInt 200) (PInt 200) (PInt 5)])) as Hi
    by (vm_compute; reflexivity).
  split; [exact Hr|]. split; [exact Hz|]. split; [exact Hi|].
  exact (init_other_resolutions_kept five_mm None PNone None [] _ _ _ Hr Hz Hi).
Defined.

Lemma init_zero_resolution_divides_by_zero_witness :
  float_geometry half_mm ∧
  effective_resolution half_mm None [] = Ok (XYZ (PInt 200) (PInt 200) (PInt 0)) ∧
  key_z (XYZ (PInt 200) (PInt 200) (PInt 0)) = PInt 0 ∧
  volume_orientation.__init__ half_mm None PNone None []
  = (Raise (ZeroDivisionError "float division by zero"),
     [] ++ [XYZ (PInt 200) (PInt 200) (PInt 0)]).
Proof.
  assert (float_geometry half_mm) as Hg.
  { eexists _, _, _, _, _. split; [reflexivity|].
    repeat split; try (vm_compute; reflexivity). left. vm_compute. reflexivity. }
  assert (effective_resolution half_mm None []
          = Ok (XYZ (PInt 200) (PInt 200) (PInt 0))) as Hr
    by (vm_compute; reflexivity).
  split; [exact Hg|]. split; [exact Hr|]. split; [reflexivity|].
  exact (init_zero_resolution_divides_by_zero half_mm None [] _ Hg Hr eq_refl).
Defined.

Lemma init_requires_keys_witness :
  In "dThickness" ["sNormal"; "dReadoutFOV"; "dPhaseFOV"; "dThickness"] ∧
  no_thickness_items !! "dThickness" = None ∧
  ∃ e, volume_orientation.__init__ (PDict no_thickness_items) None PNone None []
       = (Raise e, []) ∧
       ("dThickness" = "sNormal" → e = KeyError "sNormal").
Proof.
  assert (In "dThickness" ["sNormal"; "dReadoutFOV"; "dPhaseFOV"; "dThickness"])
    as Hin by (cbn; tauto).
  assert (no_thickness_items !! "dThickness" = None) as Hk
    by (vm_compute; reflexivity).
  split; [exact Hin|]. split; [exact Hk|].
  exact (init_requires_keys no_thickness_items None PNone None [] _ Hin Hk).
Defined.

End DescriptorExamples.


Lemma seq_getitem_nonneg {A} kind (l : list A) (i : Z) (x : A) :
  0 <= i → l !! Z.to_nat i = Some x → seq_getitem kind l i = Ok x.
Proof.
  intros Hi Hx. unfold seq_getitem.
  apply lookup_lt_Some in Hx as Hlt.
  destruct (Z.ltb_spec i 0); [lia|].
  destruct (Z.ltb_spec i 0); [lia|].
  destruct (Z.leb_spec (Z.of_nat (length l)) i); [lia|]. cbn [orb].
  now rewrite Hx.
Qed.

Lemma seq_getitem_negative {A} kind (l : list A) (i : Z) (x : A) :
  i < 0 → 0 <= i + Z.of_nat (length l) →
  l !! Z.to_nat (i + Z.of_nat (length l)) = Some x →
  seq_getitem kind l i = Ok x.
Proof.
  intros Hi Hlo Hx. unfold seq_getitem.
  apply lookup_lt_Some in Hx as Hlt.
  destruct (Z.ltb_spec i 0); [|lia].
  destruct (Z.ltb_spec (i + Z.of_nat (length l)) 0); [lia|].
  destruct (Z.leb_spec (Z.of_nat (length l)) (i + Z.of_nat (length l))); [lia|].
  cbn [orb]. now rewrite Hx.
Qed.

Lemma seq_getitem_below {A} kind (l : list A) (i : Z) :
  i < - Z.of_nat (length l) →
  seq_getitem kind l i = Raise (IndexError (kind +:+ " index out of range")).
Proof.
  intros Hi. unfold seq_getitem.
  destruct (Z.ltb_spec i 0); [|lia].
  destruct (Z.ltb_spec (i + Z.of_nat (length l)) 0); [|lia]. reflexivity.
Qed.

Lemma lookup_snoc {A} (l : list A) (x : A) : (l ++ [x]) !! length l = Some x.
Proof. rewrite lookup_app_r by lia. now rewrite Nat.sub_diag. Qed.

Section CollectionMore.
Context `{Externals}.
Import volume.

(** X8.  [add] appends: the length grows by one, the new volume is found at
    the old length and at index -1, iteration yields the old volumes
    followed by the new one, and the collection's name is kept. *)
Theorem add_appends (c : volume.t) (vol : volume_orientation.t) :
  __len__ (add c vol) = __len__ c + 1 ∧
  __getitem__ (add c vol) (__len__ c) = Ok vol ∧
  __getitem__ (add c vol) (-1) = Ok vol ∧
  __iter__ (add c vol) = __iter__ c ++ [vol] ∧
  name (add c vol) = name c.
Proof.
  assert (__len__ (add c vol) = __len__ c + 1) as Hlen.
  { unfold __len__, add. cbn [_vol_box]. rewrite length_app. cbn [length]. lia. }
  split; [exact Hlen|]. unfold __getitem__. rewrite Hlen.
  destruct (Z.leb_spec (__len__ c + 1) (__len__ c)); [lia|].
  assert (0 <= __len__ c) by (unfold __len__; lia).
  destruct (Z.leb_spec (__len__ c + 1) (-1)); [lia|].
  repeat split.
  - apply seq_getitem_nonneg; [done|]. unfold __len__, add. cbn [_vol_box].
    rewrite Nat2Z.id. apply lookup_snoc.
  - unfold add. cbn [_vol_box]. apply seq_getitem_negative; [lia| |].
    + rewrite length_app. cbn [length]. lia.
    + rewrite length_app. cbn [length].
      replace (Z.to_nat (-1 + Z.of_nat (length (_vol_box c) + 1)))
        with (length (_vol_box c)) by lia.
      apply lookup_snoc.
Qed.

(** X9.  [add] does not disturb the volumes already held: every index
    [0 <= i < len(c)] gives after [add] the volume it gave before. *)
Theorem add_keeps_elements (c : volume.t) (vol : volume_orientation.t) (i : Z) :
  0 <= i < __len__ c →
  __getitem__ (add c vol) i = __getitem__ c i ∧
  ∃ old, __getitem__ c i = Ok old ∧ _vol_box c !! Z.to_nat i = Some old.
Proof.
  intros [Hlo Hhi]. unfold __getitem__.
  assert (__len__ (add c vol) = __len__ c + 1) as ->
    by (unfold __len__, add; cbn [_vol_box]; rewrite length_app;
        cbn [length]; lia).
  destruct (Z.leb_spec (__len__ c + 1) i); [lia|].
  destruct (Z.leb_spec (__len__ c) i); [lia|].
  unfold __len__ in Hhi.
  destruct (_vol_box c !! Z.to_nat i) as [old|] eqn:E;
    [|apply lookup_ge_None in E; lia].
  rewrite (seq_getitem_nonneg "list" (_vol_box c) i old Hlo E).
  split; [|eauto]. apply seq_getitem_nonneg; [done|].
  unfold add. cbn [_vol_box]. rewrite lookup_app_l; [done|].
  now apply lookup_lt_Some in E.
Qed.

(** X10.  An index below [-len(c)] passes the explicit range check of
    [__getitem__] and is rejected by the list itself: [IndexError]
    with the message ['list index out of range']. *)
Theorem getitem_below_range (c : volume.t) (i : Z) :
  i < - __len__ c →
  __getitem__ c i = Raise (IndexError "list index out of range").
Proof.
  intros Hi. unfold __getitem__. assert (0 <= __len__ c) by (unfold __len__; lia).
  destruct (Z.leb_spec (__len__ c) i); [lia|].
  now apply (seq_getitem_below "list").
Qed.

End CollectionMore.

Section CollectionExamples.
Import Symbolic Examples.
#[local] Existing Instance externals.

Lemma add_keeps_elements_witness :
  0 <= 1 < volume.__len__ slice_collection ∧
  volume.__getitem__ (volume.add slice_collection five_mm_descriptor) 1
    = volume.__getitem__ slice_collection 1 ∧
  ∃ old, volume.__getitem__ slice_collection 1 = Ok old ∧
         volume._vol_box slice_collection !! Z.to_nat 1 = Some old.
Proof.
  assert (0 <= 1 < volume.__len__ slice_collection) as Hi
    by (vm_compute; split; [discriminate | reflexivity]).
  split; [exact Hi|].
  exact (add_keeps_elements slice_collection five_mm_descriptor 1 Hi).
Defined.

Lemma getitem_below_range_witness :
  -4 < - volume.__len__ slice_collection ∧
  volume.__getitem__ slice_collection (-4)
  = Raise (IndexError "list index out of range").
Proof.
  assert (-4 < - volume.__len__ slice_collection) as Hi
    by (vm_compute; reflexivity).
  split; [exact Hi|].
  exact (getitem_below_range slice_collection (-4) Hi).
Defined.

End CollectionExamples.


Section CollectionsBuilt.
Context `{Externals}.
Import volume.

Lemma single_slice_fix_stable (r : xyz) :
  eq_int (key_z (single_slice_fix r)) 1 = false.
Proof.
  unfold single_slice_fix. cbn [key_z].
  destruct (eq_int (key_z r) 1) eqn:E; [reflexivity | exact E].
Qed.

Lemma slice_loop_stable items : ∀ self l h r c h',
  h !! l = Some r → eq_int (key_z r) 1 = false →
  volume_slice.loop self l items h = (Ok c, h') →
  h' = h ∧ name c = name self ∧
  ∃ new, _vol_box c = _vol_box self ++ new ∧
         Forall2 (λ item d, volume_orientation._res d = l ∧
                            derived_thickness item r
                              (volume_orientation._thickness d)) items new.
Proof.
  induction items as [|item items IH]; intros self l h r c h' Hr Hz Hloop.
  - apply mret_Ok in Hloop as [-> ->]. repeat split.
    exists []. split; [now rewrite app_nil_r | constructor].
  - cbn [volume_slice.loop] in Hloop.
    apply Eval_bind_Ok in Hloop as (vol & h1 & Hvol & Hloop).
    do 6 eval_inv Hloop.
    apply init_Ok_inv in Hvol
      as (fx & fy & fz & h2 & r1 & t1 & _ & _ & Hfz & _ & _ & [Hl ->] & Hr1 & _ & Ht1 & Hfix).
    rewrite Hl in Hr1. assert (r1 = r) as -> by congruence.
    rewrite Hz in Hfix. destruct Hfix as [-> Ht]. cbn [is_None] in Ht1.
    destruct (IH _ _ _ _ _ _ Hr Hz Hloop) as (-> & Hname & new & Hbox & Hall).
    repeat split; [done|].
    exists (vol :: new). split.
    + rewrite Hbox. unfold add. cbn [_vol_box]. now rewrite <- app_assoc.
    + constructor; [|done]. split; [done|]. exists fz. split; [done | congruence].
Qed.

Lemma slice_loop_Ok item items self l h r c h' :
  h !! l = Some r →
  volume_slice.loop self l (item :: items) h = (Ok c, h') →
  h' = <[l := single_slice_fix r]> h ∧ name c = name self ∧
  ∃ d ds,
    _vol_box c = _vol_box self ++ d :: ds ∧
    volume_orientation._res d = l ∧
    (∃ t, derived_thickness item r t ∧
          if eq_int (key_z r) 1
          then truediv t (PInt 3) = Ok (volume_orientation._thickness d)
          else volume_orientation._thickness d = t) ∧
    Forall2 (λ item d, volume_orientation._res d = l ∧
                       derived_thickness item (single_slice_fix r)
                         (volume_orientation._thickness d)) items ds.
Proof.
  intros Hr Hloop. cbn [volume_slice.loop] in Hloop.
  apply Eval_bind_Ok in Hloop as (vol & h1 & Hvol & Hloop).
  do 6 eval_inv Hloop.
  apply init_Ok_inv in Hvol
    as (fx & fy & fz & h2 & r1 & t1 & _ & _ & Hfz & _ & _ & [Hl ->] & Hr1 & _ & Ht1 & Hfix).
  rewrite Hl in Hr1, Hfix. assert (r1 = r) as -> by congruence.
  cbn [is_None] in Ht1.
  assert (h1 = <[l := single_slice_fix r]> h) as ->.
  { unfold single_slice_fix. destruct (eq_int (key_z r) 1).
    - now destruct Hfix.
    - destruct Hfix as [-> _]. symmetry. apply list_insert_id.
      etrans; [exact Hr|]. now destruct r. }
  assert (<[l := single_slice_fix r]> h !! l = Some (single_slice_fix r)) as Hr'.
  { apply list_lookup_insert_eq. now apply lookup_lt_Some in Hr. }
  destruct (slice_loop_stable _ _ _ _ _ _ _ Hr' (single_slice_fix_stable r) Hloop)
    as (-> & Hname & new & Hbox & Hall).
  repeat split; [done|].
  exists vol, new. split; [|split; [done|split; [|done]]].
  - rewrite Hbox. unfold add. cbn [_vol_box]. now rewrite <- app_assoc.
  - exists t1. split; [now exists fz|].
    destruct (eq_int (key_z r) 1); [now destruct Hfix | now destruct Hfix].
Qed.

(** The statements of [volume_slice.__init__] up to the loop. *)
Lemma volume_slice_Ok_inv xprot h c h' :
  volume_slice.__init__ xprot h = (Ok c, h') →
  (slice_array_absent xprot ∧ c = volume.__init__ (Some "slice") ∧ h' = h) ∨
  ∃ rx ry rz dim slices items,
    getpath xprot [Key "sKSpace"; Key "lBaseResolution"] = Ok rx ∧
    getpath xprot [Key "sKSpace"; Key "lPhaseEncodingLines"] = Ok ry ∧
    getpath xprot [Key "sKSpace"; Key "lPartitions"] = Ok rz ∧
    getpath xprot [Key "sKSpace"; Key "ucDimension"] = Ok dim ∧
    getpath xprot [Key "sSliceArray"; Key "asSlice"] = Ok slices ∧
    iter slices = Ok items ∧
    volume_slice.loop (volume.__init__ (Some "slice")) (length h) items
      (h ++ [XYZ rx ry (if eq_int dim 4 then rz else PInt 1)]) = (Ok c, h').
Proof.
  unfold volume_slice.__init__. intros Hi.
  apply bind_lift_Ok in Hi as (a & Ha & Hi).
  destruct (is_None a) eqn:Na.
  { left. apply mret_Ok in Hi as [-> ->]. destruct a; try discriminate.
    split; [now left | done]. }
  apply bind_lift_Ok in Hi as (a' & Ha' & Hi).
  apply bind_lift_Ok in Hi as (b & Hb & Hi).
  destruct (is_None b) eqn:Nb.
  { left. apply mret_Ok in Hi as [-> ->]. destruct b; try discriminate.
    split; [right; eauto | done]. }
  right.
  apply bind_lift_Ok in Hi as (rx & Hrx & Hi).
  apply bind_lift_Ok in Hi as (ry & Hry & Hi).
  apply bind_lift_Ok in Hi as (rz & Hrz & Hi).
  apply Eval_bind_Ok in Hi as (l & h1 & Hal & Hi).
  injection Hal as <- <-.
  apply bind_lift_Ok in Hi as (dim & Hdim & Hi).
  apply Eval_bind_Ok in Hi as (z & h2 & Hz & Hi).
  assert (z = (if eq_int dim 4 then rz else PInt 1) ∧ h2 = h ++ [XYZ rx ry rz])
    as [-> ->].
  { destruct (eq_int dim 4).
    - apply Eval_bind_Ok in Hz as (r & h3 & [Hr ->]%load_Ok & [-> ->]%mret_Ok).
      rewrite alloc_lookup in Hr. now injection Hr as <-.
    - now apply mret_Ok in Hz as [-> ->]. }
  apply Eval_bind_Ok in Hi as (u & h3 & (r & Hr & ->)%store_z_Ok & Hi).
  rewrite alloc_lookup in Hr. injection Hr as <-. cbn [key_x key_y] in Hi.
  rewrite insert_last in Hi.
  apply bind_lift_Ok in Hi as (slices & Hs & Hi).
  apply bind_lift_Ok in Hi as (items & Hit & Hi).
  exists rx, ry, rz, dim, slices, items. repeat split; done.
Qed.

Lemma volume_slice_name xprot h c h' :
  volume_slice.__init__ xprot h = (Ok c, h') → name c = Some "slice".
Proof.
  intros [(_ & -> & _) | (rx & ry & rz & dim & slices & items
            & _ & _ & _ & _ & _ & _ & Hloop)]%volume_slice_Ok_inv;
    [reflexivity|].
  destruct items as [|item items].
  - now apply mret_Ok in Hloop as [-> _].
  - apply (slice_loop_Ok _ _ _ _ _
             (XYZ rx ry (if eq_int dim 4 then rz else PInt 1))) in Hloop
      as (_ & Hname & _); [exact Hname | apply alloc_lookup].
Qed.

(** X11.  A slice collection is named ['slice'] and is empty when the slice
    array is missing.  Otherwise it holds one descriptor per entry of
    ['asSlice'], all of them referring to one and the same resolution
    dictionary, created from the k-space resolution with ['z'] 1 for a
    2D protocol; once a slice has been constructed a ['z'] of 1 has
    become 3 in that shared dictionary. *)
Theorem volume_slice_shares_resolution xprot h c h' :
  volume_slice.__init__ xprot h = (Ok c, h') →
  name c = Some "slice" ∧
  ((slice_array_absent xprot ∧ _vol_box c = [] ∧ h' = h) ∨
   ∃ rx ry rz dim slices items,
     getpath xprot [Key "sKSpace"; Key "lBaseResolution"] = Ok rx ∧
     getpath xprot [Key "sKSpace"; Key "lPhaseEncodingLines"] = Ok ry ∧
     getpath xprot [Key "sKSpace"; Key "lPartitions"] = Ok rz ∧
     getpath xprot [Key "sKSpace"; Key "ucDimension"] = Ok dim ∧
     getpath xprot [Key "sSliceArray"; Key "asSlice"] = Ok slices ∧
     iter slices = Ok items ∧
     __len__ c = Z.of_nat (length items) ∧
     Forall (λ d, volume_orientation._res d = length h) (_vol_box c) ∧
     h' = h ++ [match items with
                | [] => XYZ rx ry (if eq_int dim 4 then rz else PInt 1)
                | _ :: _ => single_slice_fix
                              (XYZ rx ry (if eq_int dim 4 then rz else PInt 1))
                end]).
Proof.
  intros [(Habs & -> & ->) | (rx & ry & rz & dim & slices & items
            & Hrx & Hry & Hrz & Hdim & Hs & Hit & Hloop)]%volume_slice_Ok_inv.
  { split; [reflexivity|]. now left. }
  set (r0 := XYZ rx ry (if eq_int dim 4 then rz else PInt 1)) in *.
  destruct items as [|item items].
  - apply mret_Ok in Hloop as [-> ->]. split; [reflexivity|]. right.
    exists rx, ry, rz, dim, slices, []. repeat split; done.
  - apply (slice_loop_Ok _ _ _ _ _ r0) in Hloop
      as (-> & Hname & d & ds & Hbox & Hd & _ & Hall); [|apply alloc_lookup].
    split; [exact Hname|]. right.
    exists rx, ry, rz, dim, slices, (item :: items).
    cbn [volume.__init__ _vol_box app] in Hbox.
    repeat split; try done.
    + unfold __len__. rewrite Hbox. cbn [length].
      apply Forall2_length in Hall. now rewrite Hall.
    + rewrite Hbox. constructor; [done|].
      clear -Hall. induction Hall as [|? ? ? ? [? _]]; constructor; done.
    + apply insert_last.
Qed.

(** X12.  Because the slices share their resolution dictionary, the
    single-slice correction is applied once: only the first slice has
    its thickness divided by 3 (when ['z'] was 1), and every later
    slice gets [dThickness / res['z']] with the ['z'] already
    corrected. *)
Theorem volume_slice_thickness xprot h c h' slices item items :
  volume_slice.__init__ xprot h = (Ok c, h') →
  ¬ slice_array_absent xprot →
  getpath xprot [Key "sSliceArray"; Key "asSlice"] = Ok slices →
  iter slices = Ok (item :: items) →
  ∃ rx ry rz dim d ds t,
    getpath xprot [Key "sKSpace"; Key "lBaseResolution"] = Ok rx ∧
    getpath xprot [Key "sKSpace"; Key "lPhaseEncodingLines"] = Ok ry ∧
    getpath xprot [Key "sKSpace"; Key "lPartitions"] = Ok rz ∧
    getpath xprot [Key "sKSpace"; Key "ucDimension"] = Ok dim ∧
    _vol_box c = d :: ds ∧
    derived_thickness item (XYZ rx ry (if eq_int dim 4 then rz else PInt 1)) t ∧
    (if eq_int (if eq_int dim 4 then rz else PInt 1) 1
     then truediv t (PInt 3) = Ok (volume_orientation._thickness d)
     else volume_orientation._thickness d = t) ∧
    Forall2 (λ item d,
               derived_thickness item
                 (single_slice_fix
                    (XYZ rx ry (if eq_int dim 4 then rz else PInt 1)))
                 (volume_orientation._thickness d)) items ds.
Proof.
  intros [(Habs & _) | (rx & ry & rz & dim & slices' & items'
            & Hrx & Hry & Hrz & Hdim & Hs & Hit & Hloop)]%volume_slice_Ok_inv
    Hna Hslices Hitems; [done|].
  assert (slices' = slices) as -> by congruence.
  assert (items' = item :: items) as -> by congruence.
  set (r0 := XYZ rx ry (if eq_int dim 4 then rz else PInt 1)) in *.
  apply (slice_loop_Ok _ _ _ _ _ r0) in Hloop
    as (-> & Hname & d & ds & Hbox & Hd & (t & Ht & Hfix) & Hall); [|apply alloc_lookup].
  exists rx, ry, rz, dim, d, ds, t. repeat split; try done.
  clear -Hall. induction Hall as [|? ? ? ? [_ ?]]; constructor; done.
Qed.

End CollectionsBuilt.

Section SliceExamples.
Import Symbolic Examples.
#[local] Existing Instance externals.

Lemma volume_slice_shares_resolution_witness :
  volume_slice.__init__ protocol []
    = (Ok slice_collection, [XYZ (PInt 64) (PInt 64) (PInt 3)]) ∧
  volume.name slice_collection = Some "slice" ∧
  ((slice_array_absent protocol ∧ volume._vol_box slice_collection = [] ∧
    [XYZ (PInt 64) (PInt 64) (PInt 3)] = []) ∨
   ∃ rx ry rz dim slices items,
     getpath protocol [Key "sKSpace"; Key "lBaseResolution"] = Ok rx ∧
     getpath protocol [Key "sKSpace"; Key "lPhaseEncodingLines"] = Ok ry ∧
     getpath protocol [Key "sKSpace"; Key "lPartitions"] = Ok rz ∧
     getpath protocol [Key "sKSpace"; Key "ucDimension"] = Ok dim ∧
     getpath protocol [Key "sSliceArray"; Key "asSlice"] = Ok slices ∧
     iter slices = Ok items ∧
     volume.__len__ slice_collection = Z.of_nat (length items) ∧
     Forall (λ d, volume_orientation._res d = length ([] : heap))
       (volume._vol_box slice_collection) ∧
     [XYZ (PInt 64) (PInt 64) (PInt 3)]
     = [] ++ [match items with
              | [] => XYZ rx ry (if eq_int dim 4 then rz else PInt 1)
              | _ :: _ => single_slice_fix
                            (XYZ rx ry (if eq_int dim 4 then rz else PInt 1))
              end]).
Proof.
  assert (volume_slice.__init__ protocol []
          = (Ok slice_collection, [XYZ (PInt 64) (PInt 64) (PInt 3)])) as Hi
    by (vm_compute; reflexivity).
  split; [exact Hi|].
  exact (volume_slice_shares_resolution protocol [] _ _ Hi).
Defined.

Lemma volume_slice_thickness_witness :
  volume_slice.__init__ protocol []
    = (Ok slice_collection, [XYZ (PInt 64) (PInt 64) (PInt 3)]) ∧
  ¬ slice_array_absent protocol ∧
  getpath protocol [Key "sSliceArray"; Key "asSlice"]
    = Ok (PList protocol_slices) ∧
  iter (PList protocol_slices) = Ok (slice_at 0 :: [slice_at 5; slice_at 10]) ∧
  ∃ rx ry rz dim d ds t,
    getpath protocol [Key "sKSpace"; Key "lBaseResolution"] = Ok rx ∧
    getpath protocol [Key "sKSpace"; Key "lPhaseEncodingLines"] = Ok ry ∧
    getpath protocol [Key "sKSpace"; Key "lPartitions"] = Ok rz ∧
    getpath protocol [Key "sKSpace"; Key "ucDimension"] = Ok dim ∧
    volume._vol_box slice_collection = d :: ds ∧
    derived_thickness (slice_at 0)
      (XYZ rx ry (if eq_int dim 4 then rz else PInt 1)) t ∧
    (if eq_int (if eq_int dim 4 then rz else PInt 1) 1
     then truediv t (PInt 3) = Ok (volume_orientation._thickness d)
     else volume_orientation._thickness d = t) ∧
    Forall2 (λ item d,
               derived_thickness item
                 (single_slice_fix
                    (XYZ rx ry (if eq_int dim 4 then rz else PInt 1)))
                 (volume_orientation._thickness d))
      [slice_at 5; slice_at 10] ds.
Proof.
  assert (volume_slice.__init__ protocol []
          = (Ok slice_collection, [XYZ (PInt 64) (PInt 64) (PInt 3)])) as Hi
    by (vm_compute; reflexivity).
  assert (¬ slice_array_absent protocol) as Hp.
  { intros [E | (a & Ea & Eb)].
    - vm_compute in E. discriminate E.
    - vm_compute in Ea. injection Ea as <-. vm_compute in Eb. discriminate Eb. }
  assert (getpath protocol [Key "sSliceArray"; Key "asSlice"]
          = Ok (PList protocol_slices)) as Hs by (vm_compute; reflexivity).
  assert (iter (PList protocol_slices)
          = Ok (slice_at 0 :: [slice_at 5; slice_at 10])) as Ht by reflexivity.
  split; [exact Hi|]. split; [exact Hp|]. split; [exact Hs|].
  split; [exact Ht|].
  exact (volume_slice_thickness protocol [] _ _ _ _ _ Hi Hp Hs Ht).
Defined.

End SliceExamples.


Section CollectionsBuilt2.
Context `{Externals}.
Import volume.

Lemma ptx_loop_Ok items : ∀ self h c h',
  volume_ptx.loop self items h = (Ok c, h') →
  name c = name self ∧
  ∃ new rs,
    _vol_box c = _vol_box self ++ new ∧ h' = h ++ rs ∧
    length new = length items ∧ length rs = length items ∧
    ∀ i d, new !! i = Some d →
           volume_orientation._res d = (length h + i)%nat.
Proof.
  induction items as [|item items IH]; intros self h c h' Hloop.
  - apply mret_Ok in Hloop as [-> ->]. split; [done|].
    exists [], []. rewrite !app_nil_r. repeat split; try done.
  - cbn [volume_ptx.loop] in Hloop.
    apply Eval_bind_Ok in Hloop as (vol & h1 & Hvol & Hloop).
    apply init_fresh_res in Hvol
      as (fx & fy & fz & rx & ry & rz & _ & _ & _ & _ & _ & _ & Hl & ->).
    apply IH in Hloop as (Hname & new & rs & Hbox & -> & Hn & Hrs & Hres).
    split; [exact Hname|].
    eexists (vol :: new), (_ :: rs). repeat split.
    + rewrite Hbox. unfold add. cbn [_vol_box]. now rewrite <- app_assoc.
    + now rewrite <- app_assoc.
    + cbn [length]. now rewrite Hn.
    + cbn [length]. now rewrite Hrs.
    + intros [|i] d Hd.
      * injection Hd as <-. rewrite Hl. lia.
      * apply Hres in Hd. rewrite Hd, length_app. cbn [length]. lia.
Qed.

Lemma volume_ptx_name xprot h c h' :
  volume_ptx.__init__ xprot h = (Ok c, h') → name c = Some "pTx".
Proof.
  unfold volume_ptx.__init__. intros Hi.
  apply bind_lift_Ok in Hi as (a & Ha & Hi).
  destruct (is_None a); [now apply mret_Ok in Hi as [-> _]|].
  apply bind_lift_Ok in Hi as (a' & Ha' & Hi).
  apply bind_lift_Ok in Hi as (b & Hb & Hi).
  destruct (is_None b); [now apply mret_Ok in Hi as [-> _]|].
  apply bind_lift_Ok in Hi as (vols & Hv & Hi).
  apply bind_lift_Ok in Hi as (items & Hit & Hi).
  now apply ptx_loop_Ok in Hi as (Hname & _).
Qed.

Lemma volume_adjustment_name xprot h c h' :
  volume_adjustment.__init__ xprot h = (Ok c, h') →
  name c = Some "adjustment".
Proof.
  unfold volume_adjustment.__init__. intros Hi.
  apply bind_lift_Ok in Hi as (a & Ha & Hi).
  destruct (is_None a); [now apply mret_Ok in Hi as [-> _]|].
  apply bind_lift_Ok in Hi as (a' & Ha' & Hi).
  apply bind_lift_Ok in Hi as (b & Hb & Hi).
  destruct (is_None b); [now apply mret_Ok in Hi as [-> _]|].
  apply bind_lift_Ok in Hi as (vs & Hv & Hi).
  apply Eval_bind_Ok in Hi as (d & h1 & Hd & Hi).
  now apply mret_Ok in Hi as [-> _].
Qed.

(** X13.  A pTx collection is named ['pTx'] and is empty when
    ['sPTXData']['asPTXVolume'] is missing.  Otherwise it holds one
    descriptor per entry, each with a resolution dictionary of its own,
    created in the order of the entries. *)
Theorem volume_ptx_own_resolutions xprot h c h' :
  volume_ptx.__init__ xprot h = (Ok c, h') →
  name c = Some "pTx" ∧
  ((subsection_absent xprot "sPTXData" "asPTXVolume" ∧
    _vol_box c = [] ∧ h' = h) ∨
   ∃ vols items rs,
     getpath xprot [Key "sPTXData"; Key "asPTXVolume"] = Ok vols ∧
     iter vols = Ok items ∧
     __len__ c = Z.of_nat (length items) ∧
     h' = h ++ rs ∧ length rs = length items ∧
     ∀ i d, _vol_box c !! i = Some d →
            volume_orientation._res d = (length h + i)%nat).
Proof.
  unfold volume_ptx.__init__. intros Hi.
  apply bind_lift_Ok in Hi as (a & Ha & Hi).
  destruct (is_None a) eqn:Na.
  { apply mret_Ok in Hi as [-> ->]. destruct a; try discriminate.
    split; [done|]. left. split; [now left | done]. }
  apply bind_lift_Ok in Hi as (a' & Ha' & Hi).
  apply bind_lift_Ok in Hi as (b & Hb & Hi).
  destruct (is_None b) eqn:Nb.
  { apply mret_Ok in Hi as [-> ->]. destruct b; try discriminate.
    split; [done|]. left. split; [right; eauto | done]. }
  apply bind_lift_Ok in Hi as (vols & Hv & Hi).
  apply bind_lift_Ok in Hi as (items & Hit & Hi).
  apply ptx_loop_Ok in Hi as (Hname & new & rs & Hbox & -> & Hn & Hrs & Hres).
  cbn [volume.__init__ _vol_box app] in Hbox.
  split; [exact Hname|]. right. exists vols, items, rs.
  repeat split; try done.
  - unfold __len__. now rewrite Hbox, Hn.
  - intros i d. rewrite Hbox. apply Hres.
Qed.

(** X14.  An adjustment collection is named ['adjustment']; it is empty when
    ['sAdjData']['sAdjVolume'] is missing, and otherwise holds exactly
    the one descriptor constructed from that structure with neither
    resolution nor thickness supplied. *)
Theorem volume_adjustment_at_most_one xprot h c h' :
  volume_adjustment.__init__ xprot h = (Ok c, h') →
  name c = Some "adjustment" ∧
  ((subsection_absent xprot "sAdjData" "sAdjVolume" ∧
    _vol_box c = [] ∧ h' = h) ∨
   ∃ vs d,
     getpath xprot [Key "sAdjData"; Key "sAdjVolume"] = Ok vs ∧
     volume_orientation.__init__ vs None PNone None h = (Ok d, h') ∧
     _vol_box c = [d]).
Proof.
  unfold volume_adjustment.__init__. intros Hi.
  apply bind_lift_Ok in Hi as (a & Ha & Hi).
  destruct (is_None a) eqn:Na.
  { apply mret_Ok in Hi as [-> ->]. destruct a; try discriminate.
    split; [done|]. left. split; [now left | done]. }
  apply bind_lift_Ok in Hi as (a' & Ha' & Hi).
  apply bind_lift_Ok in Hi as (b & Hb & Hi).
  destruct (is_None b) eqn:Nb.
  { apply mret_Ok in Hi as [-> ->]. destruct b; try discriminate.
    split; [done|]. left. split; [right; eauto | done]. }
  apply bind_lift_Ok in Hi as (vs & Hv & Hi).
  apply Eval_bind_Ok in Hi as (d & h1 & Hd & Hi).
  apply mret_Ok in Hi as [-> ->].
  split; [done|]. right. exists vs, d. repeat split; done.
Qed.

End CollectionsBuilt2.

Section OtherCollectionExamples.
Import Symbolic Examples.
#[local] Existing Instance externals.

Lemma volume_ptx_own_resolutions_witness :
  volume_ptx.__init__ protocol []
    = (Ok ptx_collection, [XYZ (PInt 200) (PInt 200) (PInt 40)]) ∧
  volume.name ptx_collection = Some "pTx" ∧
  ((subsection_absent protocol "sPTXData" "asPTXVolume" ∧
    volume._vol_box ptx_collection = [] ∧
    [XYZ (PInt 200) (PInt 200) (PInt 40)] = []) ∨
   ∃ vols items rs,
     getpath protocol [Key "sPTXData"; Key "asPTXVolume"] = Ok vols ∧
     iter vols = Ok items ∧
     volume.__len__ ptx_collection = Z.of_nat (length items) ∧
     [XYZ (PInt 200) (PInt 200) (PInt 40)] = [] ++ rs ∧
     length rs = length items ∧
     ∀ i d, volume._vol_box ptx_collection !! i = Some d →
            volume_orientation._res d = (length ([] : heap) + i)%nat).
Proof.
  assert (volume_ptx.__init__ protocol []
          = (Ok ptx_collection, [XYZ (PInt 200) (PInt 200) (PInt 40)])) as Hi
    by (vm_compute; reflexivity).
  split; [exact Hi|].
  exact (volume_ptx_own_resolutions protocol [] _ _ Hi).
Defined.

Lemma volume_adjustment_at_most_one_witness :
  volume_adjustment.__init__ protocol []
    = (Ok adjustment_collection, [XYZ (PInt 200) (PInt 200) (PInt 100)]) ∧
  volume.name adjustment_collection = Some "adjustment" ∧
  ((subsection_absent protocol "sAdjData" "sAdjVolume" ∧
    volume._vol_box adjustment_collection = [] ∧
    [XYZ (PInt 200) (PInt 200) (PInt 100)] = []) ∨
   ∃ vs d,
     getpath protocol [Key "sAdjData"; Key "sAdjVolume"] = Ok vs ∧
     volume_orientation.__init__ vs None PNone None []
       = (Ok d, [XYZ (PInt 200) (PInt 200) (PInt 100)]) ∧
     volume._vol_box adjustment_collection = [d]).
Proof.
  assert (volume_adjustment.__init__ protocol []
          = (Ok adjustment_collection,
             [XYZ (PInt 200) (PInt 200) (PInt 100)])) as Hi
    by (vm_compute; reflexivity).
  split; [exact Hi|].
  exact (volume_adjustment_at_most_one protocol [] _ _ Hi).
Defined.

End OtherCollectionExamples.


Section RegistryMore.
Context `{Externals}.
Import prot_volumes.

(** X15.  A registry constructed from an argument other than [None] holds
    exactly the collections ['slc'], ['ptx'] and ['adj'], in this
    order, named ['slice'], ['pTx'] and ['adjustment']; [get] returns
    each of them, and [num_volumes] is the sum of their lengths. *)
Theorem registry_collections param h reg h' :
  __init__ param h = (Ok reg, h') →
  param ≠ PNone →
  ∃ slc ptx adj,
    get reg "slc" = Ok slc ∧ get reg "ptx" = Ok ptx ∧ get reg "adj" = Ok adj ∧
    volume.name slc = Some "slice" ∧ volume.name ptx = Some "pTx" ∧
    volume.name adj = Some "adjustment" ∧
    num_volumes reg
      = volume.__len__ slc + volume.__len__ ptx + volume.__len__ adj ∧
    odict_keys (_all_volumes reg) = ["slc"; "ptx"; "adj"].
Proof.
  intros [(-> & _) | (xp & slc & ptx & adj & h1 & h2 & _ & _ & Hs & Hp & Ha
                       & _ & Hall & Hnum)]%registry_init_Ok_inv Hn; [done|].
  exists slc, ptx, adj. unfold get. rewrite Hall.
  apply volume_slice_name in Hs. apply volume_ptx_name in Hp.
  apply volume_adjustment_name in Ha.
  repeat split; done.
Qed.

(** X16.  [get_volume_names] lists, in the order ['slc'], ['ptx'], ['adj'],
    exactly the names whose collection is not empty; it is empty
    exactly when [num_volumes] is 0. *)
Theorem volume_names_are_the_nonempty_collections param h reg h' :
  __init__ param h = (Ok reg, h') →
  sublist (get_volume_names reg) ["slc"; "ptx"; "adj"] ∧
  (∀ name, In name (get_volume_names reg) ↔
           ∃ c, get reg name = Ok c ∧ 0 < volume.__len__ c) ∧
  (get_volume_names reg = [] ↔ num_volumes reg = 0).
Proof.
  intros [(_ & -> & _) | (xp & slc & ptx & adj & h1 & h2 & _ & _ & _ & _ & _
                          & _ & Hall & Hnum)]%registry_init_Ok_inv.
  { split; [apply sublist_nil_l|]. split; [|done].
    intros name. split; [intros [] | intros (c & Hc & _); discriminate]. }
  destruct reg as [xp' all n]. cbn [_all_volumes num_volumes] in Hall, Hnum.
  subst all. rewrite names_of_three. cbn [num_volumes]. rewrite Hnum.
  assert (0 <= volume.__len__ slc ∧ 0 <= volume.__len__ ptx
          ∧ 0 <= volume.__len__ adj) as (? & ? & ?)
    by (unfold volume.__len__; lia).
  destruct (get_of_three xp' slc ptx adj n) as (Gs & Gp & Ga).
  assert (∀ name c, get (Build xp' [("slc", slc); ("ptx", ptx); ("adj", adj)] n)
                      name = Ok c →
            (name = "slc" ∧ c = slc) ∨ (name = "ptx" ∧ c = ptx)
            ∨ (name = "adj" ∧ c = adj)) as Hget.
  { intros name c. unfold get. cbn [_all_volumes odict_get].
    destruct (String.eqb_spec "slc" name) as [<-|_]; [intros [= <-]; auto|].
    destruct (String.eqb_spec "ptx" name) as [<-|_]; [intros [= <-]; auto|].
    destruct (String.eqb_spec "adj" name) as [<-|_]; [intros [= <-]; auto|].
    discriminate. }
  destruct (Z.ltb_spec 0 (volume.__len__ slc)),
    (Z.ltb_spec 0 (volume.__len__ ptx)), (Z.ltb_spec 0 (volume.__len__ adj));
    cbn [app]; (split; [repeat first [apply sublist_nil_l | apply sublist_skip
                                       | apply sublist_cons]|]);
    (split; [|split; intros ?; first [discriminate | reflexivity | lia
                                      | exfalso; lia]]);
    intros name; (split;
      [ cbn [In]; intros Hin;
        repeat (destruct Hin as [<-|Hin]; [eauto|]); destruct Hin
      | intros (c & Hc & Hpos);
        destruct (Hget name c Hc) as [[-> ->]|[[-> ->]|[-> ->]]];
        cbn [In]; first [lia | auto] ]).
Qed.

Lemma get_held param key :
  holds param key →
  ∃ x, Py.get param key PNone = Ok x ∧ is_None x = false ∧
       getitem param key = Ok x.
Proof.
  intros (d & x & -> & Hx & Hne). exists x. unfold Py.get, getitem.
  rewrite Hx. repeat split. now destruct x.
Qed.

Lemma get_not_held_dict param key d :
  param = PDict d → ¬ holds param key → Py.get param key PNone = Ok PNone.
Proof. intros -> Hn. now apply get_not_held. Qed.

(** X17.  Where the protocol of a registry comes from: [param['hdr']['MeasYaps']]
    when ['hdr'] is held, else [param['MeasYaps']] when that is held,
    else [param] itself when it holds ['ulVersion']; an argument that
    is not a mapping is an existing file whose text was parsed. *)
Theorem xprot_provenance param h reg h' :
  __init__ param h = (Ok reg, h') →
  param ≠ PNone →
  (holds param "hdr" →
   getpath param [Key "hdr"; Key "MeasYaps"] = Ok (xprot reg)) ∧
  (¬ holds param "hdr" → holds param "MeasYaps" →
   getitem param "MeasYaps" = Ok (xprot reg)) ∧
  (¬ holds param "hdr" → ¬ holds param "MeasYaps" → holds param "ulVersion" →
   xprot reg = param) ∧
  ((∀ d, param ≠ PDict d) →
   os_path_isfile param = Ok true ∧
   ∃ str, read_text param = Ok str ∧ parse_buffer str = Ok (xprot reg)).
Proof.
  intros [(-> & _) | (xp & slc & ptx & adj & h1 & h2 & _ & Hsel & _ & _ & _
                       & -> & _)]%registry_init_Ok_inv Hn; [done|].
  unfold select_xprot in Hsel. split; [|split; [|split]].
  - intros Hh. destruct (get_held _ _ Hh) as (x & Hx & Nx & _).
    destruct Hh as (d & _ & -> & _).
    rewrite Hx in Hsel. cbn [mbind result_bind] in Hsel. now rewrite Nx in Hsel.
  - intros Hnh Hm. destruct (get_held _ _ Hm) as (x & Hx & Nx & Gx).
    destruct Hm as (d & _ & -> & _).
    rewrite (get_not_held _ _ Hnh) in Hsel. cbn [mbind result_bind is_None negb] in Hsel.
    rewrite Hx in Hsel. cbn [mbind result_bind] in Hsel. now rewrite Nx in Hsel.
  - intros Hnh Hnm Hu. destruct (get_held _ _ Hu) as (x & Hx & Nx & _).
    destruct Hu as (d & _ & -> & _).
    rewrite (get_not_held _ _ Hnh) in Hsel. cbn [mbind result_bind is_None negb] in Hsel.
    rewrite (get_not_held _ _ Hnm) in Hsel. cbn [mbind result_bind is_None negb] in Hsel.
    rewrite Hx in Hsel. cbn [mbind result_bind] in Hsel. rewrite Nx in Hsel.
    now injection Hsel.
  - intros Hnd.
    assert ((isfile ← os_path_isfile param;
             if isfile : bool then str ← read_text param; parse_buffer str
             else Raise (unknown_parameter param)) = Ok xp) as Hfile.
    { destruct param; try exact Hsel. now destruct (Hnd d). }
    destruct (os_path_isfile param) as [[|]|]; try discriminate.
    cbn [mbind result_bind] in Hfile. split; [done|].
    destruct (read_text param) as [str|]; [|discriminate]. eauto.
Qed.

End RegistryMore.

Section RegistryExamples.
Import Symbolic Examples.
#[local] Existing Instance externals.

(** The registry of [protocol] is constructed. *)
Lemma registry_run :
  prot_volumes.__init__ protocol [] = (Ok registry, registry_store).
Proof.
  vm_compute; reflexivity.
Qed.

Lemma protocol_given : protocol ≠ PNone.
Proof.
  discriminate.
Qed.

Lemma registry_collections_witness :
  prot_volumes.__init__ protocol [] = (Ok registry, registry_store) ∧
  protocol ≠ PNone ∧
  ∃ slc ptx adj,
    prot_volumes.get registry "slc" = Ok slc ∧
    prot_volumes.get registry "ptx" = Ok ptx ∧
    prot_volumes.get registry "adj" = Ok adj ∧
    volume.name slc = Some "slice" ∧ volume.name ptx = Some "pTx" ∧
    volume.name adj = Some "adjustment" ∧
    prot_volumes.num_volumes registry
      = volume.__len__ slc + volume.__len__ ptx + volume.__len__ adj ∧
    odict_keys (prot_volumes._all_volumes registry) = ["slc"; "ptx"; "adj"].
Proof.
  split; [exact registry_run|]. split; [exact protocol_given|].
  exact (registry_collections protocol [] registry registry_store
           registry_run protocol_given).
Defined.

Lemma volume_names_are_the_nonempty_collections_witness :
  prot_volumes.__init__ protocol [] = (Ok registry, registry_store) ∧
  sublist (prot_volumes.get_volume_names registry) ["slc"; "ptx"; "adj"] ∧
  (∀ name, In name (prot_volumes.get_volume_names registry) ↔
           ∃ c, prot_volumes.get registry name = Ok c ∧ 0 < volume.__len__ c) ∧
  (prot_volumes.get_volume_names registry = [] ↔
   prot_volumes.num_volumes registry = 0).
Proof.
  split; [exact registry_run|].
  exact (volume_names_are_the_nonempty_collections protocol [] registry
           registry_store registry_run).
Defined.

Lemma xprot_provenance_witness :
  prot_volumes.__init__ protocol [] = (Ok registry, registry_store) ∧
  protocol ≠ PNone ∧
  (holds protocol "hdr" →
   getpath protocol [Key "hdr"; Key "MeasYaps"]
     = Ok (prot_volumes.xprot registry)) ∧
  (¬ holds protocol "hdr" → holds protocol "MeasYaps" →
   getitem protocol "MeasYaps" = Ok (prot_volumes.xprot registry)) ∧
  (¬ holds protocol "hdr" → ¬ holds protocol "MeasYaps" →
   holds protocol "ulVersion" → prot_volumes.xprot registry = protocol) ∧
  ((∀ d, protocol ≠ PDict d) →
   os_path_isfile protocol = Ok true ∧
   ∃ str, read_text protocol = Ok str ∧
          parse_buffer str = Ok (prot_volumes.xprot registry)).
Proof.
  split; [exact registry_run|]. split; [exact protocol_given|].
  exact (xprot_provenance protocol [] registry registry_store
           registry_run protocol_given).
Defined.

End RegistryExamples.


Section SummaryMore.
Context `{Externals}.
Import protocol_parse.

(** Peel every statement off a constructor call that returned. *)
Ltac summary_inv E :=
  unfold __init__ in E;
  repeat match type of E with
         | (_ ≫= _) = Ok _ =>
             let a := fresh "a" in let Ea := fresh "Ea" in
             apply result_bind_Ok in E as (a & Ea & E)
         end;
  injection E as <-;
  rename a into hdr, a0 into img, a1 into dim, a2 into xres, a3 into yres,
         a4 into lsize, a5 into r, a6 into pat, a7 into ref, a8 into ape,
         a9 into a3d, a10 into ro, a11 into ppf, a12 into spf,
         a24 into grad, a25 into al.

(** X18.  In a protocol summary [is3D] says whether ['ucDimension'] is 4; the
    resolution is the base resolution, the phase-encoding lines, and
    along z the number of partitions of a 3D protocol, the slice count
    ['lSize'] otherwise. *)
Theorem summary_resolution twix_obj p :
  __init__ twix_obj = Ok p →
  ∃ hdr dim rx ry lsize,
    getitem twix_obj "hdr" = Ok hdr ∧
    getpath hdr [Key "MeasYaps"; Key "sKSpace"; Key "ucDimension"] = Ok dim ∧
    getpath hdr [Key "MeasYaps"; Key "sKSpace"; Key "lBaseResolution"] = Ok rx ∧
    getpath hdr [Key "MeasYaps"; Key "sKSpace"; Key "lPhaseEncodingLines"]
      = Ok ry ∧
    getpath hdr [Key "MeasYaps"; Key "sSliceArray"; Key "lSize"] = Ok lsize ∧
    is3D p = eq_int dim 4 ∧
    key_x (res p) = rx ∧ key_y (res p) = ry ∧
    (if is3D p
     then getpath hdr [Key "MeasYaps"; Key "sKSpace"; Key "lPartitions"]
          = Ok (key_z (res p))
     else key_z (res p) = lsize).
Proof.
  intros E. summary_inv E. cbn [is3D res].
  exists hdr, dim, xres, yres, lsize. repeat split; try done.
  - destruct (eq_int dim 4).
    + now apply result_bind_Ok in Ea5 as (z & Hz & [= <-]).
    + now injection Ea5 as <-.
  - destruct (eq_int dim 4).
    + now apply result_bind_Ok in Ea5 as (z & Hz & [= <-]).
    + now injection Ea5 as <-.
  - destruct (eq_int dim 4).
    + now apply result_bind_Ok in Ea5 as (z & Hz & [= <-]).
    + now injection Ea5 as <-.
Qed.

(** X19.  The flags of a protocol summary: parallel imaging when
    ['ucPATMode'] is 2, separate reference scan when ['ucRefScanMode']
    is 4, the two acceleration factors in the order PE, 3D, partial
    Fourier along a phase-encoding axis when its header value is not
    16; [OS] is never assigned and stays 0. *)
Theorem summary_flags twix_obj p :
  __init__ twix_obj = Ok p →
  ∃ hdr pat ref ape a3d ppf spf,
    getitem twix_obj "hdr" = Ok hdr ∧
    getpath hdr [Key "MeasYaps"; Key "sPat"; Key "ucPATMode"] = Ok pat ∧
    getpath hdr [Key "MeasYaps"; Key "sPat"; Key "ucRefScanMode"] = Ok ref ∧
    getpath hdr [Key "MeasYaps"; Key "sPat"; Key "lAccelFactPE"] = Ok ape ∧
    getpath hdr [Key "MeasYaps"; Key "sPat"; Key "lAccelFact3D"] = Ok a3d ∧
    getpath hdr [Key "MeasYaps"; Key "sKSpace"; Key "ucPhasePartialFourier"]
      = Ok ppf ∧
    getpath hdr [Key "MeasYaps"; Key "sKSpace"; Key "ucSlicePartialFourier"]
      = Ok spf ∧
    isParallelImaging p = eq_int pat 2 ∧
    isRefScanSeparate p = eq_int ref 4 ∧
    acceleration_factor p = [ape; a3d] ∧
    isPartialFourierPE1 p = negb (eq_int ppf 16) ∧
    isPartialFourierPE2 p = negb (eq_int spf 16) ∧
    OS p = 0.
Proof.
  intros E. summary_inv E.
  exists hdr, pat, ref, ape, a3d, ppf, spf. repeat split; done.
Qed.

Lemma partial_fourier_ro_value (res : xyz) (a : twix_array) (rx col n : Z) :
  key_x res = PInt rx →
  index (dims a) "Col" = Ok col →
  shape a !! Z.to_nat (col / 2) = Some n →
  partial_fourier_ro res (PTwix a) = Ok (4 <? Z.abs (rx - n)).
Proof.
  intros Hx Hcol Hn. unfold partial_fourier_ro. cbn [attr_shape attr_dims mbind result_bind].
  rewrite Hcol. cbn [mbind result_bind].
  assert (0 <= col).
  { unfold index in Hcol. destruct (list_index (dims a) "Col"); [|discriminate].
    injection Hcol as <-. lia. }
  rewrite (seq_getitem_nonneg "tuple" (shape a) (col / 2) n);
    [|apply Z.div_pos; lia | exact Hn].
  cbn [mbind result_bind]. now rewrite Hx.
Qed.

(** X20.  [isPartialFourierRO] is set exactly when the base resolution
    differs by more than 4 from the extent of the image at position
    [dims.index('Col') // 2]. *)
Theorem summary_partial_fourier_readout twix_obj p (rx : Z) :
  __init__ twix_obj = Ok p →
  key_x (res p) = PInt rx →
  ∃ a col n,
    getitem twix_obj "image" = Ok (PTwix a) ∧
    index (dims a) "Col" = Ok col ∧
    shape a !! Z.to_nat (col / 2) = Some n ∧
    isPartialFourierRO p = (4 <? Z.abs (rx - n)).
Proof.
  intros E. summary_inv E. cbn [res isPartialFourierRO]. intros Hx.
  unfold partial_fourier_ro in Ea10.
  apply result_bind_Ok in Ea10 as (sh & Hsh & Ea10).
  apply result_bind_Ok in Ea10 as (dm & Hdm & Ea10).
  apply result_bind_Ok in Ea10 as (col & Hcol & Ea10).
  apply result_bind_Ok in Ea10 as (n & Hn & Ea10).
  destruct img; try discriminate. injection Hsh as <-. injection Hdm as <-.
  assert (0 <= col).
  { unfold index in Hcol. destruct (list_index (dims a) "Col"); [|discriminate].
    injection Hcol as <-. lia. }
  assert (0 <= col / 2) by (apply Z.div_pos; lia).
  assert (shape a !! Z.to_nat (col / 2) = Some n) as Hlook.
  { unfold seq_getitem in Hn.
    destruct (Z.ltb_spec (col / 2) 0); [lia|].
    destruct ((col / 2 <? 0) || (Z.of_nat (length (shape a)) <=? col / 2));
      [discriminate|].
    destruct (shape a !! Z.to_nat (col / 2)); [congruence | discriminate]. }
  exists a, col, n. repeat split; try done.
  rewrite Hx in Ea10. cbn in Ea10. now injection Ea10 as <-.
Qed.

Lemma shim_current_of_list (l : list pyval) (i : Z) :
  0 <= i →
  shim_current (PList l) i
  = Ok (item_or_default l (Z.to_nat i) (PFloat (S754_zero false))).
Proof.
  intros Hi. unfold shim_current, item_or_default. cbn [len mbind result_bind].
  destruct (Z.ltb_spec i (Z.of_nat (length l))).
  - destruct (l !! Z.to_nat i) as [x|] eqn:E;
      [|apply lookup_ge_None in E; lia].
    cbn [getindex]. now apply seq_getitem_nonneg.
  - destruct (l !! Z.to_nat i) as [x|] eqn:E; [|done].
    apply lookup_lt_Some in E. lia.
Qed.

Lemma get_present_or_default v k default a :
  Py.get v k default = Ok a → getitem v k = Ok a ∨ a = default.
Proof.
  destruct v; try discriminate. unfold Py.get, getitem.
  destruct (d !! k); intros [= <-]; auto.
Qed.

Lemma gpa_offset_Ok_inv hdr grad key x :
  getpath hdr [Key "Phoenix"; Key "sGRADSPEC"] = Ok grad →
  gpa_offset hdr key = Ok x →
  ∃ gpa, getpath grad [Key "asGPAData"; Idx 0] = Ok (PDict gpa) ∧
         x = lookup_default gpa key (PInt 0).
Proof.
  intros Hg. unfold gpa_offset. rewrite Hg. cbn [mbind result_bind].
  intros (a & Ha & (a0 & Ha0 & Hx)%result_bind_Ok)%result_bind_Ok.
  apply get_dict_inv in Hx as (gpa & -> & ->).
  exists gpa. split; [|done].
  cbn [getpath subscr]. apply get_present_or_default in Ha as [-> | ->];
    [cbn [mbind result_bind]; now rewrite Ha0 | discriminate].
Qed.

(** X21.  When ['alShimCurrent'] is a list, the shims are, in this order:
    ['A00'] the nucleus frequency; ['X'], ['Y'], ['Z'] the offsets of
    the first ['asGPAData'] entry, 0 where it has none; ['A20'] to
    ['A32'] the first nine shim currents, 0.0 for those beyond the end
    of the list. *)
Theorem summary_shims twix_obj p header sGRADSPEC l :
  __init__ twix_obj = Ok p →
  getitem twix_obj "hdr" = Ok header →
  getpath header [Key "Phoenix"; Key "sGRADSPEC"] = Ok sGRADSPEC →
  getitem sGRADSPEC "alShimCurrent" = Ok (PList l) →
  ∃ freq gpa,
    getpath header [Key "MeasYaps"; Key "sTXSPEC"; Key "asNucleusInfo"; Idx 0;
                 Key "lFrequency"] = Ok freq ∧
    getpath sGRADSPEC [Key "asGPAData"; Idx 0] = Ok (PDict gpa) ∧
    shims p
    = [("A00", freq);
       ("X", lookup_default gpa "lOffsetX" (PInt 0));
       ("Y", lookup_default gpa "lOffsetY" (PInt 0));
       ("Z", lookup_default gpa "lOffsetZ" (PInt 0));
       ("A20", item_or_default l 0 (PFloat (S754_zero false)));
       ("A21", item_or_default l 1 (PFloat (S754_zero false)));
       ("B21", item_or_default l 2 (PFloat (S754_zero false)));
       ("A22", item_or_default l 3 (PFloat (S754_zero false)));
       ("B22", item_or_default l 4 (PFloat (S754_zero false)));
       ("A30", item_or_default l 5 (PFloat (S754_zero false)));
       ("A31", item_or_default l 6 (PFloat (S754_zero false)));
       ("B31", item_or_default l 7 (PFloat (S754_zero false)));
       ("A32", item_or_default l 8 (PFloat (S754_zero false)))].
Proof.
  intros E Hh Hg Hal. summary_inv E. cbn [shims].
  assert (hdr = header) as -> by congruence.
  assert (grad = sGRADSPEC) as -> by congruence.
  assert (al = PList l) as ->.
  { apply getitem_dict_inv in Hal as (d & -> & Hd).
    unfold Py.get in Ea25. rewrite Hd in Ea25. congruence. }
  destruct (gpa_offset_Ok_inv _ _ _ _ Hg Ea27) as (gpa & Hgpa & ->).
  destruct (gpa_offset_Ok_inv _ _ _ _ Hg Ea28) as (gpa' & Hgpa' & ->).
  destruct (gpa_offset_Ok_inv _ _ _ _ Hg Ea29) as (gpa'' & Hgpa'' & ->).
  assert (gpa' = gpa) as -> by congruence.
  assert (gpa'' = gpa) as -> by congruence.
  rewrite shim_current_of_list in Ea30, Ea31, Ea32, Ea33, Ea34, Ea35, Ea36,
    Ea37, Ea38 by lia.
  injection Ea30 as <-. injection Ea31 as <-. injection Ea32 as <-.
  injection Ea33 as <-. injection Ea34 as <-. injection Ea35 as <-.
  injection Ea36 as <-. injection Ea37 as <-. injection Ea38 as <-.
  exists a26, gpa. repeat split; done.
Qed.

End SummaryMore.

Section SummaryExamples.
Import Symbolic Examples.
#[local] Existing Instance externals.

(** The summary of the measurement [twix gradspec]. *)
Lemma summary_run : protocol_parse.__init__ (twix gradspec) = Ok summary.
Proof.
  vm_compute; reflexivity.
Qed.

Lemma summary_resolution_witness :
  protocol_parse.__init__ (twix gradspec) = Ok summary ∧
  ∃ hdr dim rx ry lsize,
    getitem (twix gradspec) "hdr" = Ok hdr ∧
    getpath hdr [Key "MeasYaps"; Key "sKSpace"; Key "ucDimension"] = Ok dim ∧
    getpath hdr [Key "MeasYaps"; Key "sKSpace"; Key "lBaseResolution"] = Ok rx ∧
    getpath hdr [Key "MeasYaps"; Key "sKSpace"; Key "lPhaseEncodingLines"]
      = Ok ry ∧
    getpath hdr [Key "MeasYaps"; Key "sSliceArray"; Key "lSize"] = Ok lsize ∧
    protocol_parse.is3D summary = eq_int dim 4 ∧
    key_x (protocol_parse.res summary) = rx ∧
    key_y (protocol_parse.res summary) = ry ∧
    (if protocol_parse.is3D summary
     then getpath hdr [Key "MeasYaps"; Key "sKSpace"; Key "lPartitions"]
          = Ok (key_z (protocol_parse.res summary))
     else key_z (protocol_parse.res summary) = lsize).
Proof.
  split; [exact summary_run|].
  exact (summary_resolution (twix gradspec) summary summary_run).
Defined.

Lemma summary_flags_witness :
  protocol_parse.__init__ (twix gradspec) = Ok summary ∧
  ∃ hdr pat ref ape a3d ppf spf,
    getitem (twix gradspec) "hdr" = Ok hdr ∧
    getpath hdr [Key "MeasYaps"; Key "sPat"; Key "ucPATMode"] = Ok pat ∧
    getpath hdr [Key "MeasYaps"; Key "sPat"; Key "ucRefScanMode"] = Ok ref ∧
    getpath hdr [Key "MeasYaps"; Key "sPat"; Key "lAccelFactPE"] = Ok ape ∧
    getpath hdr [Key "MeasYaps"; Key "sPat"; Key "lAccelFact3D"] = Ok a3d ∧
    getpath hdr [Key "MeasYaps"; Key "sKSpace"; Key "ucPhasePartialFourier"]
      = Ok ppf ∧
    getpath hdr [Key "MeasYaps"; Key "sKSpace"; Key "ucSlicePartialFourier"]
      = Ok spf ∧
    protocol_parse.isParallelImaging summary = eq_int pat 2 ∧
    protocol_parse.isRefScanSeparate summary = eq_int ref 4 ∧
    protocol_parse.acceleration_factor summary = [ape; a3d] ∧
    protocol_parse.isPartialFourierPE1 summary = negb (eq_int ppf 16) ∧
    protocol_parse.isPartialFourierPE2 summary = negb (eq_int spf 16) ∧
    protocol_parse.OS summary = 0.
Proof.
  split; [exact summary_run|].
  exact (summary_flags (twix gradspec) summary summary_run).
Defined.

Lemma summary_partial_fourier_readout_witness :
  protocol_parse.__init__ (twix gradspec) = Ok summary ∧
  key_x (protocol_parse.res summary) = PInt 64 ∧
  ∃ a col n,
    getitem (twix gradspec) "image" = Ok (PTwix a) ∧
    index (dims a) "Col" = Ok col ∧
    shape a !! Z.to_nat (col / 2) = Some n ∧
    protocol_parse.isPartialFourierRO summary = (4 <? Z.abs (64 - n)).
Proof.
  assert (key_x (protocol_parse.res summary) = PInt 64) as Hx by reflexivity.
  split; [exact summary_run|]. split; [exact Hx|].
  exact (summary_partial_fourier_readout (twix gradspec) summary 64
           summary_run Hx).
Defined.

Lemma summary_shims_witness :
  protocol_parse.__init__ (twix gradspec) = Ok summary ∧
  getitem (twix gradspec) "hdr" = Ok (header gradspec) ∧
  getpath (header gradspec) [Key "Phoenix"; Key "sGRADSPEC"] = Ok gradspec ∧
  getitem gradspec "alShimCurrent"
    = Ok (PList [PInt 10; PInt 20; PInt 30; PInt 40; PInt 50]) ∧
  ∃ freq gpa,
    getpath (header gradspec)
      [Key "MeasYaps"; Key "sTXSPEC"; Key "asNucleusInfo"; Idx 0;
       Key "lFrequency"] = Ok freq ∧
    getpath gradspec [Key "asGPAData"; Idx 0] = Ok (PDict gpa) ∧
    protocol_parse.shims summary
    = [("A00", freq);
       ("X", lookup_default gpa "lOffsetX" (PInt 0));
       ("Y", lookup_default gpa "lOffsetY" (PInt 0));
       ("Z", lookup_default gpa "lOffsetZ" (PInt 0));
       ("A20", PInt 10); ("A21", PInt 20); ("B21", PInt 30); ("A22", PInt 40);
       ("B22", PInt 50);
       ("A30", PFloat (S754_zero false)); ("A31", PFloat (S754_zero false));
       ("B31", PFloat (S754_zero false)); ("A32", PFloat (S754_zero false))].
Proof.
  assert (getitem (twix gradspec) "hdr" = Ok (header gradspec)) as Hh
    by (vm_compute; reflexivity).
  assert (getpath (header gradspec) [Key "Phoenix"; Key "sGRADSPEC"]
          = Ok gradspec) as Hg by (vm_compute; reflexivity).
  assert (getitem gradspec "alShimCurrent"
          = Ok (PList [PInt 10; PInt 20; PInt 30; PInt 40; PInt 50])) as Hl
    by (vm_compute; reflexivity).
  split; [exact summary_run|]. split; [exact Hh|]. split; [exact Hg|].
  split; [exact Hl|].
  exact (summary_shims (twix gradspec) summary (header gradspec) gradspec _
           summary_run Hh Hg Hl).
Defined.

End SummaryExamples.
